(** * hypermodel/src/utils.ts: password hashing and verification

    A shallow embedding of [hashPassword], [parsePassword] and
    [verifyPassword] together with the parts of the JavaScript and Node.js
    runtime they rely on: strings as sequences of UTF-16 code units,
    [String.prototype.split] and [trim], [parseInt], [assert.strictEqual],
    the lenient hex and base64 codecs of [Buffer], and
    [crypto.timingSafeEqual].

    The two asynchronous primitives, [crypto.randomBytes] and
    [crypto.pbkdf2], are kept as commands of a small promise monad.  A
    program is the tree of the commands it awaits; a backend that implements
    the key derivation function, and an entropy tape, turn the tree into an
    outcome and the list of the commands that were performed. *)

From Stdlib Require Import List String Ascii ZArith NArith Lia Bool.
From Stdlib Require Import DecimalString.
From Stdlib Require Import Strings.Byte.
Import ListNotations.

Local Open Scope N_scope.

(** ** Strings and buffers *)

(** A JavaScript string is a sequence of UTF-16 code units. *)
Definition jsstring := list N.

(** A [Buffer] is a sequence of bytes. *)
Definition Buffer := list Byte.byte.

(** The code units of an ASCII literal. *)
Definition lit (s : string) : jsstring :=
  map N_of_ascii (list_ascii_of_string s).

Fixpoint jsstring_eqb (a b : jsstring) : bool :=
  match a, b with
  | [], [] => true
  | x :: a', y :: b' => (x =? y) && jsstring_eqb a' b'
  | _, _ => false
  end.

Definition byte_of_N (n : N) : Byte.byte :=
  match Byte.of_N n with
  | Some b => b
  | None => Byte.x00
  end.

(** The bytes of an ASCII literal. *)
Definition bytes (s : string) : Buffer := map byte_of_N (lit s).

Fixpoint Buffer_eqb (a b : Buffer) : bool :=
  match a, b with
  | [], [] => true
  | x :: a', y :: b' => Byte.eqb x y && Buffer_eqb a' b'
  | _, _ => false
  end.

(** [buffer.length], a JavaScript number. *)
Definition Buffer_length (b : Buffer) : Z := Z.of_nat (List.length b).

Module JS.

(** WhiteSpace and LineTerminator code points (ECMA-262, 12.2 and 12.3):
    what [trim] and [parseInt] strip. *)
Definition isWhiteSpace (c : N) : bool :=
  (c =? 9) || (c =? 10) || (c =? 11) || (c =? 12) || (c =? 13) ||
  (c =? 32) || (c =? 160) || (c =? 5760) ||
  ((8192 <=? c) && (c <=? 8202)) ||
  (c =? 8232) || (c =? 8233) || (c =? 8239) || (c =? 8287) ||
  (c =? 12288) || (c =? 65279).

Fixpoint dropWhile (f : N -> bool) (s : jsstring) : jsstring :=
  match s with
  | [] => []
  | c :: s' => if f c then dropWhile f s' else s
  end.

Fixpoint takeWhile (f : N -> bool) (s : jsstring) : jsstring :=
  match s with
  | [] => []
  | c :: s' => if f c then c :: takeWhile f s' else []
  end.

Definition trimStart (s : jsstring) : jsstring := dropWhile isWhiteSpace s.

Definition trimEnd (s : jsstring) : jsstring :=
  rev (dropWhile isWhiteSpace (rev s)).

(** [String.prototype.trim] *)
Definition trim (s : jsstring) : jsstring := trimEnd (trimStart s).

(** [string.length]: the number of code units. *)
Definition length (s : jsstring) : Z := Z.of_nat (List.length s).

(** [String.prototype.split] with a separator of one code unit and no
    limit.  The result is never empty: the empty string splits to one empty
    field. *)
Fixpoint split (sep : N) (s : jsstring) : list jsstring :=
  match s with
  | [] => [[]]
  | c :: s' =>
      if c =? sep then [] :: split sep s'
      else match split sep s' with
           | f :: fs => (c :: f) :: fs
           | [] => [[c]]
           end
  end.

(** The values the destructured fields of [verifyPassword] and the
    arguments of its assertions range over. *)
Inductive value : Type :=
| VUndefined
| VString (s : jsstring)
| VBoolean (b : bool).

(** Array destructuring: a position past the end of the array binds
    [undefined]. *)
Definition element (a : list jsstring) (i : nat) : value :=
  match nth_error a i with
  | Some s => VString s
  | None => VUndefined
  end.

Definition typeof (v : value) : jsstring :=
  match v with
  | VUndefined => lit "undefined"
  | VString _ => lit "string"
  | VBoolean _ => lit "boolean"
  end.

(** The abstract operation ToString on these values. *)
Definition ToString (v : value) : jsstring :=
  match v with
  | VUndefined => lit "undefined"
  | VString s => s
  | VBoolean true => lit "true"
  | VBoolean false => lit "false"
  end.

(** [Object.is] on these values, the comparison of [assert.strictEqual]. *)
Definition same (a b : value) : bool :=
  match a, b with
  | VUndefined, VUndefined => true
  | VString x, VString y => jsstring_eqb x y
  | VBoolean x, VBoolean y => Bool.eqb x y
  | _, _ => false
  end.

(** The numbers [parseInt] returns: [NaN], or a Number whose value is the
    integer [z].  The magnitude 2^1024, which no finite Number has, stands
    for an infinity. *)
Inductive number : Type :=
| NaN
| Num (z : Z).

(** The Number value of a mathematical integer: the integer itself below
    2^53; above, the nearest integer with 53 significant bits, a tie going
    to the even one, and an infinity from 2^1024 on. *)
Definition nearestDouble (m : Z) : Z :=
  let a := Z.abs m in
  if (a <? 2 ^ 53)%Z then m
  else
    let e := (Z.log2 a - 52)%Z in
    let q := (a / 2 ^ e)%Z in
    let r := (a mod 2 ^ e)%Z in
    let half := (2 ^ (e - 1))%Z in
    let q' :=
      if ((half <? r) || ((r =? half) && Z.odd q))%Z
      then (q + 1)%Z else q in
    let v := (q' * 2 ^ e)%Z in
    (Z.sgn m * (if (2 ^ 1024 <=? v)%Z then 2 ^ 1024 else v))%Z.

Definition isNaN (n : number) : bool :=
  match n with
  | NaN => true
  | Num _ => false
  end.

Definition isDigit (c : N) : bool := (48 <=? c) && (c <=? 57).

(** The value of a sequence of decimal digits, most significant first. *)
Definition digitsValue (ds : jsstring) : Z :=
  fold_left (fun acc c => (10 * acc + (Z.of_N c - 48))%Z) ds 0%Z.

(** [parseInt(v, 10)]: ToString, strip leading white space, an optional
    sign, then the longest prefix of decimal digits; [NaN] when that prefix
    is empty, otherwise the Number value of the signed integer. *)
Definition parseInt (v : value) : number :=
  let s := trimStart (ToString v) in
  let '(sign, s) :=
    match s with
    | 45 :: r => ((-1)%Z, r)
    | 43 :: r => (1%Z, r)
    | _ => (1%Z, s)
    end in
  match takeWhile isDigit s with
  | [] => NaN
  | ds => Num (nearestDouble (sign * digitsValue ds))
  end.

(** Number-to-string conversion of an integer, as a template literal
    performs it. *)
Definition toString (z : Z) : jsstring :=
  lit (NilZero.string_of_int (Z.to_int z)).

End JS.

(** ** Buffer encodings *)

Module Encoding.

(** The two encodings [utils.ts] passes to [Buffer.from] and
    [buffer.toString]. *)
Inductive encoding : Type :=
| hex
| base64.

(** The decoders of [Buffer.from] read a code unit through a cast to one
    byte: a code unit above 255 counts as its low byte. *)
Definition lowByte (c : N) : N := c mod 256.

(** *** hex *)

(** A nibble as a lower-case hexadecimal digit. *)
Definition hexDigit (n : N) : N :=
  if n <? 10 then 48 + n else 87 + n.

(** The nibble of a hexadecimal digit of either case. *)
Definition unhex (c : N) : option N :=
  if (48 <=? c) && (c <=? 57) then Some (c - 48)
  else if (97 <=? c) && (c <=? 102) then Some (c - 87)
  else if (65 <=? c) && (c <=? 70) then Some (c - 55)
  else None.

(** [buffer.toString('hex')]: two digits per byte. *)
Fixpoint hexEncode (b : Buffer) : jsstring :=
  match b with
  | [] => []
  | x :: b' =>
      hexDigit (Byte.to_N x / 16) :: hexDigit (Byte.to_N x mod 16)
        :: hexEncode b'
  end.

(** [Buffer.from(s, 'hex')] reads the string two digits at a time and stops,
    without an error, at the first pair that is not two hexadecimal digits;
    a trailing single character is dropped. *)
Fixpoint hexDecode (s : jsstring) : Buffer :=
  match s with
  | a :: b :: s' =>
      match unhex (lowByte a), unhex (lowByte b) with
      | Some x, Some y => byte_of_N (16 * x + y) :: hexDecode s'
      | _, _ => []
      end
  | _ => []
  end.

(** *** base64 *)

(** The character of a sextet in the standard alphabet. *)
Definition base64Char (v : N) : N :=
  if v <? 26 then 65 + v
  else if v <? 52 then 71 + v
  else if v <? 62 then v - 4
  else if v =? 62 then 43
  else 47.

(** The sextet of a character; the decoder also accepts the URL-safe
    characters [-] and [_]. *)
Definition unbase64 (c : N) : option N :=
  if (65 <=? c) && (c <=? 90) then Some (c - 65)
  else if (97 <=? c) && (c <=? 122) then Some (c - 71)
  else if (48 <=? c) && (c <=? 57) then Some (c + 4)
  else if (c =? 43) || (c =? 45) then Some 62
  else if (c =? 47) || (c =? 95) then Some 63
  else None.

(** [buffer.toString('base64')]: three bytes make a 24-bit group of four
    sextets; a final group of one or two bytes is padded with [=]. *)
Fixpoint base64Encode (b : Buffer) : jsstring :=
  match b with
  | x :: y :: z :: b' =>
      let n := (Byte.to_N x * 256 + Byte.to_N y) * 256 + Byte.to_N z in
      base64Char (n / 262144) :: base64Char ((n / 4096) mod 64)
        :: base64Char ((n / 64) mod 64) :: base64Char (n mod 64)
        :: base64Encode b'
  | [x; y] =>
      let n := (Byte.to_N x * 256 + Byte.to_N y) * 4 in
      [base64Char (n / 4096); base64Char ((n / 64) mod 64);
       base64Char (n mod 64); 61]
  | [x] =>
      let n := Byte.to_N x * 16 in
      [base64Char (n / 64); base64Char (n mod 64); 61; 61]
  | [] => []
  end.

(** The sextets the decoder reads: characters outside the alphabet are
    skipped, and the first [=] ends the input. *)
Fixpoint sextets (s : jsstring) : list N :=
  match s with
  | [] => []
  | c :: s' =>
      if lowByte c =? 61 then []
      else match unbase64 (lowByte c) with
           | Some v => v :: sextets s'
           | None => sextets s'
           end
  end.

(** Four sextets give three bytes; a final group of two or three sextets
    gives one or two bytes, and a single left-over sextet gives none. *)
Fixpoint pack (l : list N) : Buffer :=
  match l with
  | a :: b :: c :: d :: l' =>
      let m := ((a * 64 + b) * 64 + c) * 64 + d in
      byte_of_N (m / 65536) :: byte_of_N ((m / 256) mod 256)
        :: byte_of_N (m mod 256) :: pack l'
  | [a; b; c] =>
      let m := (a * 64 + b) * 64 + c in
      [byte_of_N (m / 1024); byte_of_N ((m / 4) mod 256)]
  | [a; b] => [byte_of_N ((a * 64 + b) / 16)]
  | _ => []
  end.

(** [Buffer.from(s, 'base64')]: never an error. *)
Definition base64Decode (s : jsstring) : Buffer := pack (sextets s).

Definition decode (e : encoding) (s : jsstring) : Buffer :=
  match e with
  | hex => hexDecode s
  | base64 => base64Decode s
  end.

Definition encode (e : encoding) (b : Buffer) : jsstring :=
  match e with
  | hex => hexEncode b
  | base64 => base64Encode b
  end.

End Encoding.

(** ** Errors and promises *)

(** The exceptions that can leave the two functions.  [Error] is the plain
    [new Error(message)] of [hashPassword]; [AssertionError] is what
    [assert.strictEqual] throws, with the message given as its third
    argument; [TypeError] and [RangeError] carry the error code of the
    Node.js API that threw them. *)
Inductive exn : Type :=
| Error (message : string)
| AssertionError (message : string)
| TypeError (code : string)
| RangeError (code : string).

Inductive result (A : Type) : Type :=
| Ok (a : A)
| Err (e : exn).

Arguments Ok {A} a.
Arguments Err {A} e.

(** The salt argument of [pbkdf2] is a string or a buffer. *)
Inductive BinaryLike : Type :=
| OfString (s : jsstring)
| OfBuffer (b : Buffer).

(** The promisified calls into [crypto] that the functions await; both
    resolve to a buffer. *)
Inductive crypto : Type :=
| randomBytes (size : Z)
| pbkdf2 (password : jsstring) (salt : BinaryLike) (iterations keylen : Z)
    (digest : jsstring).

(** An [async] function: it resolves, rejects (a [throw] in its body), or
    awaits a command and continues with the buffer the command resolved
    to. *)
Inductive Promise (A : Type) : Type :=
| Resolve (a : A)
| Reject (e : exn)
| Await (c : crypto) (k : Buffer -> Promise A).

Arguments Resolve {A} a.
Arguments Reject {A} e.
Arguments Await {A} c k.

Fixpoint bind {A B : Type} (m : Promise A) (f : A -> Promise B) : Promise B :=
  match m with
  | Resolve a => f a
  | Reject e => Reject e
  | Await c k => Await c (fun b => bind (k b) f)
  end.

Declare Scope promise_scope.
Delimit Scope promise_scope with promise.
Notation "'let*' x ':=' m 'in' k" := (bind m (fun x => k))
  (at level 10, x name, m at level 100, k at level 200) : promise_scope.
Notation "m ';;' k" := (bind m (fun _ => k))
  (at level 100, k at level 200, right associativity) : promise_scope.

(** A synchronous call that may throw, inside an [async] body. *)
Definition settle {A : Type} (r : result A) : Promise A :=
  match r with
  | Ok a => Resolve a
  | Err e => Reject e
  end.

Definition await (c : crypto) : Promise Buffer := Await c Resolve.

(** [assert.strictEqual(actual, expected, message)] *)
Definition strictEqual (actual expected : JS.value) (message : string)
  : Promise unit :=
  if JS.same actual expected then Resolve tt
  else Reject (AssertionError message).

(** [Buffer.from(v, encoding)]: a [TypeError] for a value that is not a
    string; a string is decoded leniently and never rejected. *)
Definition Buffer_from (v : JS.value) (e : Encoding.encoding) : result Buffer :=
  match v with
  | JS.VString s => Ok (Encoding.decode e s)
  | _ => Err (TypeError "ERR_INVALID_ARG_TYPE")
  end.

(** [crypto.timingSafeEqual(a, b)]: a [RangeError] when the byte lengths
    differ, otherwise whether the contents are equal. *)
Definition timingSafeEqual (a b : Buffer) : result bool :=
  if Nat.eqb (List.length a) (List.length b) then Ok (Buffer_eqb a b)
  else Err (RangeError "ERR_CRYPTO_TIMING_SAFE_EQUAL_LENGTH").

(** ** utils.ts *)

(** [options: { legacy?: boolean }] *)
Record Options : Type := { legacy : option bool }.

(** The default argument [{}]. *)
Definition noOptions : Options := {| legacy := None |}.

(** [{ legacy: true }] *)
Definition legacyOptions : Options := {| legacy := Some true |}.

(** Truthiness of [options.legacy], as in [if (options.legacy)] and
    [options.legacy || false]. *)
Definition isLegacy (options : Options) : bool :=
  match legacy options with
  | Some true => true
  | _ => false
  end.

Local Open Scope promise_scope.

(** The template literal that [parsePassword] and [hashPassword] return. *)
Definition template (digest : jsstring) (iterations : Z)
  (salt derivedKey : jsstring) : jsstring :=
  lit "pbkdf2_" ++ digest ++ lit "$" ++ JS.toString iterations ++ lit "$"
    ++ salt ++ lit "$" ++ derivedKey.

Definition parsePassword (password : jsstring) : Promise jsstring :=
  let* saltBuffer := await (randomBytes 16) in
  let salt := Encoding.encode Encoding.hex saltBuffer in
  let iterations := 100000%Z in
  let keylen := 64%Z in
  let digest := lit "sha256" in
  let* derivedKey :=
    await (pbkdf2 password (OfString salt) iterations keylen digest) in
  Resolve
    (template digest iterations salt
       (Encoding.encode Encoding.hex derivedKey)).

Definition hashPassword (plainTextPassword : jsstring) (options : Options)
  : Promise jsstring :=
  if (JS.length (JS.trim plainTextPassword) <? 6)%Z then
    Reject (Error "Password invalid: too short")
  else if isLegacy options then parsePassword plainTextPassword
  else
    let* saltBuffer := await (randomBytes 16) in
    let iterations := 150000%Z in
    let keylen := 32%Z in
    let digest := lit "sha256" in
    let* derivedKeyBuffer :=
      await (pbkdf2 plainTextPassword (OfBuffer saltBuffer) iterations keylen
               digest) in
    let salt := Encoding.encode Encoding.base64 saltBuffer in
    let derivedKey := Encoding.encode Encoding.base64 derivedKeyBuffer in
    Resolve (template digest iterations salt derivedKey).

(** The constants [iterations] and [keylen] of [parsePassword] (legacy) and
    of [hashPassword]. *)
Definition iterationsOf (legacy : bool) : Z :=
  if legacy then 100000%Z else 150000%Z.

Definition keylenOf (legacy : bool) : Z :=
  if legacy then 64%Z else 32%Z.

(** [legacy ? 'hex' : 'base64'] *)
Definition encodingOf (legacy : bool) : Encoding.encoding :=
  if legacy then Encoding.hex else Encoding.base64.

(** The number [parseInt] returned, as passed on to [pbkdf2].  [NaN] does
    not get past the assertion; it is kept as such for totality. *)
Definition numberArg (n : JS.number) : Z :=
  match n with
  | JS.Num z => z
  | JS.NaN => 0%Z
  end.

(** [legacy ? saltBuffer.toString('hex') : saltBuffer], the salt argument of
    [pbkdf2] in [verifyPassword]. *)
Definition saltArg (legacy : bool) (saltBuffer : Buffer) : BinaryLike :=
  if legacy then OfString (Encoding.encode Encoding.hex saltBuffer)
  else OfBuffer saltBuffer.

Definition verifyPassword (plainTextPassword passwordHash : jsstring)
  (options : Options) : Promise bool :=
  let legacy := isLegacy options in
  let fields := JS.split 36 passwordHash in
  let algorithm := JS.element fields 0 in
  let iterations := JS.element fields 1 in
  let salt := JS.element fields 2 in
  let derivedKey := JS.element fields 3 in
  strictEqual algorithm (JS.VString (lit "pbkdf2_sha256"))
    "Invalid algorithm." ;;
  strictEqual (JS.VString (JS.typeof iterations)) (JS.VString (lit "string"))
    "Invalid password format." ;;
  strictEqual (JS.VString (JS.typeof salt)) (JS.VString (lit "string"))
    "Invalid password format." ;;
  strictEqual (JS.VString (JS.typeof derivedKey)) (JS.VString (lit "string"))
    "Invalid password format." ;;
  strictEqual (JS.VBoolean (JS.isNaN (JS.parseInt iterations)))
    (JS.VBoolean false) "Invalid password format." ;;
  let* saltBuffer := settle (Buffer_from salt (encodingOf legacy)) in
  let* derivedKeyBuffer :=
    settle (Buffer_from derivedKey (encodingOf legacy)) in
  let digest := lit "sha256" in
  let* password :=
    await (pbkdf2 plainTextPassword (saltArg legacy saltBuffer)
             (numberArg (JS.parseInt iterations))
             (Buffer_length derivedKeyBuffer) digest) in
  settle (timingSafeEqual password derivedKeyBuffer).

Local Close Scope promise_scope.

(** ** Running a promise *)

(** The key derivation function behind [crypto.pbkdf2]: a buffer, or the
    exception the call rejects with. *)
Record Backend : Type := {
  derive : jsstring -> BinaryLike -> Z -> Z -> jsstring -> result Buffer
}.

(** The contract of the primitive: a derived key has the length that was
    asked for, and the derivation with the digest [sha256] succeeds for an
    iteration count and a key length of at least one, both in the 31-bit
    range Node.js accepts.  Nothing is asked for a key length of zero,
    which [crypto.pbkdf2] rejects. *)
Definition lawful (B : Backend) : Prop :=
  (forall pw s it kl d out,
      derive B pw s it kl d = Ok out -> Buffer_length out = kl) /\
  (forall pw s it kl,
      (1 <= it <= 2147483647)%Z -> (1 <= kl <= 2147483647)%Z ->
      exists out, derive B pw s it kl (lit "sha256") = Ok out).

(** The random source: a tape of bytes, read from the front. *)
Definition entropy := nat -> Byte.byte.

Definition draw (n : nat) (e : entropy) : Buffer * entropy :=
  (map e (seq 0 n), fun i => e (n + i)%nat).

(** The outcome of a promise and the commands that were performed, in
    order.  A command that rejects ends the run. *)
Fixpoint run {A : Type} (B : Backend) (m : Promise A) (e : entropy)
  : result A * list crypto :=
  match m with
  | Resolve a => (Ok a, [])
  | Reject x => (Err x, [])
  | Await c k =>
      match c with
      | randomBytes size =>
          let '(buf, e') := draw (Z.to_nat size) e in
          let '(r, t) := run B (k buf) e' in
          (r, c :: t)
      | pbkdf2 pw s it kl d =>
          match derive B pw s it kl d with
          | Ok out => let '(r, t) := run B (k out) e in (r, c :: t)
          | Err x => (Err x, [c])
          end
      end
  end.

Definition outcome {A : Type} (B : Backend) (m : Promise A) (e : entropy)
  : result A := fst (run B m e).

Definition trace {A : Type} (B : Backend) (m : Promise A) (e : entropy)
  : list crypto := snd (run B m e).

(** ** A small backend to run the functions on *)

Module Toy.

Definition weight (s : BinaryLike) : N :=
  match s with
  | OfString x => fold_left N.add x 0
  | OfBuffer b => fold_left (fun a x => a + Byte.to_N x) b 0
  end.

(** Not a cryptographic function: a byte pattern that depends on the
    password, the salt and the iteration count, of the length asked for.
    Like [crypto.pbkdf2] it throws a range error for an iteration count
    below one or a key length below zero, and fails to derive a key of
    length zero. *)
Definition derive (pw : jsstring) (s : BinaryLike) (it kl : Z) (d : jsstring)
  : result Buffer :=
  if ((1 <=? it) && (it <=? 2147483647) && (0 <=? kl) && (kl <=? 2147483647))%Z
  then
    if (kl =? 0)%Z then Err (Error "Deriving bits failed")
    else
      let seed := fold_left N.add pw 0 + weight s + Z.to_N it in
      Ok (map (fun i => byte_of_N ((seed + 7 * N.of_nat i) mod 256))
            (seq 0 (Z.to_nat kl)))
  else Err (RangeError "ERR_OUT_OF_RANGE").

Definition backend : Backend := Build_Backend derive.

(** An entropy tape: 0, 1, 2, ... *)
Definition tape : entropy := fun i => byte_of_N (N.of_nat i mod 256).

End Toy.

(** ** generateHexToken *)

(** Two limits of the Node.js build that [utils.ts] does not fix: the
    largest size [crypto.randomBytes] accepts and the largest length of a
    string, [buffer.constants.MAX_STRING_LENGTH]. *)
Record Limits : Type := {
  kMaxLength : Z;
  kStringMaxLength : Z
}.

(** [crypto.randomBytes(size)] without a callback: a [RangeError] for a
    size below zero or above the limit, otherwise [size] bytes read from
    the tape. *)
Definition randomBytesSync (L : Limits) (size : Z) (e : entropy)
  : result (Buffer * entropy) :=
  if ((size <? 0) || (kMaxLength L <? size))%Z
  then Err (RangeError "ERR_OUT_OF_RANGE")
  else Ok (draw (Z.to_nat size) e).

(** [buffer.toString(encoding)]: an error when the string would be longer
    than a string can be. *)
Definition Buffer_toString (L : Limits) (enc : Encoding.encoding)
  (b : Buffer) : result jsstring :=
  let s := Encoding.encode enc b in
  if (kStringMaxLength L <? JS.length s)%Z
  then Err (Error "ERR_STRING_TOO_LONG")
  else Ok s.

(** The result, and the tape that is left. *)
Definition generateHexToken (L : Limits) (size : Z) (e : entropy)
  : result jsstring * entropy :=
  match randomBytesSync L size e with
  | Ok (buf, e') => (Buffer_toString L Encoding.hex buf, e')
  | Err x => (Err x, e)
  end.

(** The limits of a 64-bit build of Node.js 12. *)
Definition node12 : Limits :=
  {| kMaxLength := 2147483647; kStringMaxLength := 1073741799 |}.

(** PBKDF2 produces its output block after block, so a shorter key is the
    beginning of a longer one derived from the same password, salt,
    iteration count and digest. *)
Definition prefix_consistent (B : Backend) : Prop :=
  forall pw s it d k1 k2 out1 out2,
    derive B pw s it k1 d = Ok out1 ->
    derive B pw s it k2 d = Ok out2 ->
    (k1 <= k2)%Z ->
    out1 = firstn (Z.to_nat k1) out2.

(** A tape that starts at [k]: k, k + 1, ... *)
Definition tapeFrom (k : N) : entropy :=
  fun i => byte_of_N ((N.of_nat i + k) mod 256).

(** The string a run resolved to; the empty string for a run that threw. *)
Definition resolved (r : result jsstring) : jsstring :=
  match r with
  | Ok s => s
  | Err _ => []
  end.

(** * Properties *)

(** ** The runtime functions on known inputs *)

Example base64Encode_rfc4648 :
  map (fun s => Encoding.base64Encode (map byte_of_N s))
    [lit ""; lit "f"; lit "fo"; lit "foo"; lit "foob"; lit "fooba";
     lit "foobar"] =
  [lit ""; lit "Zg=="; lit "Zm8="; lit "Zm9v"; lit "Zm9vYg==";
   lit "Zm9vYmE="; lit "Zm9vYmFy"].
Proof. reflexivity. Qed.

Example base64Decode_lenient :
  Encoding.base64Decode (lit "Zm 9v*Ym\E=Zm9v") = bytes "fooba" /\
  Encoding.base64Decode (lit "Zm9vYg") = bytes "foob" /\
  Encoding.base64Decode (lit "Z") = [] /\
  Encoding.base64Decode (lit "-_-_") = Encoding.base64Decode (lit "+/+/").
Proof. repeat split. Qed.

Example hexDecode_lenient :
  Encoding.hexDecode (lit "666F6f") = bytes "foo" /\
  Encoding.hexDecode (lit "666f6") = bytes "fo" /\
  Encoding.hexDecode (lit "66zz6f") = bytes "f" /\
  Encoding.hexEncode (bytes "foo") = lit "666f6f".
Proof. repeat split. Qed.

Example parseInt_examples :
  map (fun s => JS.parseInt (JS.VString s))
    [lit "150000"; lit "  42abc"; lit "-5"; lit "+7"; lit "0"; lit "";
     lit "abc"; lit "-"; lit "1e3"; lit "0x10"] =
  [JS.Num 150000; JS.Num 42; JS.Num (-5); JS.Num 7; JS.Num 0; JS.NaN;
   JS.NaN; JS.NaN; JS.Num 1; JS.Num 0] /\
  JS.parseInt JS.VUndefined = JS.NaN.
Proof. split; reflexivity. Qed.

Example split_examples :
  JS.split 36 (lit "") = [lit ""] /\
  JS.split 36 (lit "not$enough$fields") =
  [lit "not"; lit "enough"; lit "fields"] /\
  JS.split 36 (lit "a$$b$") = [lit "a"; lit ""; lit "b"; lit ""].
Proof. repeat split. Qed.

Example trim_examples :
  JS.trim (lit "  ab c  ") = lit "ab c" /\
  JS.trim [9; 10; 160; 97; 32; 98; 8232; 65279] = [97; 32; 98] /\
  JS.length (JS.trim (lit "      ")) = 0%Z.
Proof. repeat split. Qed.

Example toString_examples :
  JS.toString 150000 = lit "150000" /\ JS.toString 100000 = lit "100000".
Proof. split; reflexivity. Qed.

(** Hashes that are rejected by an assertion. *)
Example verifyPassword_examples :
  verifyPassword (lit "hunter2") (lit "not$enough$fields") noOptions =
  Reject (AssertionError "Invalid algorithm.") /\
  verifyPassword (lit "hunter2") (lit "pbkdf2_sha512$150000$AA==$AA==")
    noOptions = Reject (AssertionError "Invalid algorithm.") /\
  verifyPassword (lit "hunter2") (lit "pbkdf2_sha256$150000$AA==") noOptions =
  Reject (AssertionError "Invalid password format.") /\
  verifyPassword (lit "hunter2") (lit "pbkdf2_sha256$x$AA==$AA==") noOptions =
  Reject (AssertionError "Invalid password format.").
Proof. repeat split. Qed.

Example hashPassword_example :
  run Toy.backend (hashPassword (lit "hunter2") noOptions) Toy.tape =
  (Ok (lit "pbkdf2_sha256$150000$AAECAwQFBgcICQoLDA0ODw==$"
         ++ lit "MDc+RUxTWmFob3Z9hIuSmaCnrrW8w8rR2N/m7fT7Agk="),
   [randomBytes 16;
    pbkdf2 (lit "hunter2")
      (OfBuffer (map byte_of_N [0; 1; 2; 3; 4; 5; 6; 7; 8; 9; 10; 11; 12;
                                13; 14; 15]))
      150000 32 (lit "sha256")]).
Proof. vm_compute. reflexivity. Qed.

(** ** Arithmetic and equality tests *)

Ltac ndiv := zify; Z.to_euclidean_division_equations; lia.

(** Case analysis on every comparison of the goal. *)
Ltac ncases :=
  repeat match goal with
    | |- context [?a <=? ?b] => destruct (N.leb_spec a b)
    | |- context [?a <? ?b] => destruct (N.ltb_spec a b)
    | |- context [?a =? ?b] => destruct (N.eqb_spec a b)
    end;
  cbn [andb orb negb]; try lia.

Lemma jsstring_eqb_eq (a b : jsstring) : jsstring_eqb a b = true <-> a = b.
Proof.
  revert b. induction a as [|x a IH]; intros [|y b]; cbn [jsstring_eqb];
    try (split; [discriminate | discriminate]); try tauto.
  rewrite andb_true_iff, N.eqb_eq, IH.
  split; [intros [-> ->]; reflexivity | intros H; inversion H; auto].
Qed.

Lemma jsstring_eqb_refl (a : jsstring) : jsstring_eqb a a = true.
Proof. apply jsstring_eqb_eq. reflexivity. Qed.

Lemma Buffer_eqb_eq (a b : Buffer) : Buffer_eqb a b = true <-> a = b.
Proof.
  revert b. induction a as [|x a IH]; intros [|y b]; cbn [Buffer_eqb];
    try (split; [discriminate | discriminate]); try tauto.
  rewrite andb_true_iff, IH. split.
  - intros [H ->]. apply Byte.byte_dec_bl in H. subst. reflexivity.
  - intros H. inversion H. split; [apply Byte.byte_dec_lb|]; reflexivity.
Qed.

Lemma Buffer_eqb_refl (a : Buffer) : Buffer_eqb a a = true.
Proof. apply Buffer_eqb_eq. reflexivity. Qed.

Lemma to_N_lt (x : Byte.byte) : Byte.to_N x < 256.
Proof. pose proof (Byte.to_N_bounded x). lia. Qed.

Lemma byte_of_to_N (x : Byte.byte) : byte_of_N (Byte.to_N x) = x.
Proof. unfold byte_of_N. rewrite Byte.of_to_N. reflexivity. Qed.

Lemma list_ind3 {A : Type} (P : list A -> Prop) :
  P [] -> (forall x, P [x]) -> (forall x y, P [x; y]) ->
  (forall x y z l, P l -> P (x :: y :: z :: l)) ->
  forall l, P l.
Proof.
  intros H0 H1 H2 H3. fix IH 1. intros [|x [|y [|z l]]].
  - exact H0.
  - apply H1.
  - apply H2.
  - apply H3, IH.
Qed.

(** ** The codecs *)

Module EncodingFacts.
Import Encoding.

Lemma unhex_hexDigit (n : N) : n < 16 -> unhex (hexDigit n) = Some n.
Proof.
  intros Hn. unfold unhex, hexDigit. ncases; f_equal; lia.
Qed.

Lemma lowByte_small (c : N) : c < 256 -> lowByte c = c.
Proof. intros H. unfold lowByte. apply N.mod_small. exact H. Qed.

Lemma lowByte_hexDigit (n : N) : n < 16 -> lowByte (hexDigit n) = hexDigit n.
Proof.
  intros Hn. apply lowByte_small. unfold hexDigit.
  destruct (N.ltb_spec n 10); lia.
Qed.

(** Decoding the hex encoding of a buffer gives the buffer back. *)
Lemma hexDecode_hexEncode (b : Buffer) : hexDecode (hexEncode b) = b.
Proof.
  induction b as [|x b IH]; [reflexivity|].
  pose proof (to_N_lt x) as Hx.
  cbn [hexEncode hexDecode].
  rewrite !lowByte_hexDigit by ndiv.
  rewrite !unhex_hexDigit by ndiv. rewrite IH. f_equal.
  replace (16 * (Byte.to_N x / 16) + Byte.to_N x mod 16) with (Byte.to_N x)
    by ndiv.
  apply byte_of_to_N.
Qed.

Lemma hexEncode_length (b : Buffer) :
  List.length (hexEncode b) = (2 * List.length b)%nat.
Proof. induction b as [|x b IH]; cbn [hexEncode List.length]; lia. Qed.

Lemma hexEncode_Forall (P : N -> Prop) (b : Buffer) :
  (forall n, n < 16 -> P (hexDigit n)) -> Forall P (hexEncode b).
Proof.
  intros HP. induction b as [|x b IH]; cbn [hexEncode]; [constructor|].
  pose proof (to_N_lt x).
  constructor; [apply HP; ndiv|]. constructor; [apply HP; ndiv|]. exact IH.
Qed.

Lemma unbase64_base64Char (v : N) :
  v < 64 -> unbase64 (base64Char v) = Some v /\ base64Char v <> 61.
Proof.
  intros Hv. destruct v as [|p].
  - split; [reflexivity | discriminate].
  - do 6 (try destruct p as [p|p|]); try lia;
      (split; [reflexivity | discriminate]).
Qed.

Lemma lowByte_base64Char (v : N) :
  v < 64 -> lowByte (base64Char v) = base64Char v.
Proof.
  intros Hv. apply lowByte_small. unfold base64Char.
  destruct (N.ltb_spec v 26); [lia|].
  destruct (N.ltb_spec v 52); [lia|].
  destruct (N.ltb_spec v 62); [lia|].
  destruct (N.eqb_spec v 62); lia.
Qed.

Lemma sextets_base64Char (v : N) (s : jsstring) :
  v < 64 -> sextets (base64Char v :: s) = v :: sextets s.
Proof.
  intros Hv. destruct (unbase64_base64Char v Hv) as [Hu Hp].
  cbn [sextets]. rewrite (lowByte_base64Char v Hv), Hu.
  destruct (N.eqb_spec (base64Char v) 61); [contradiction | reflexivity].
Qed.

Lemma group1 (x : N) :
  x < 256 ->
  let n := x * 16 in
  n / 64 < 64 /\ n mod 64 < 64 /\ (n / 64 * 64 + n mod 64) / 16 = x.
Proof. intros Hx n. subst n. repeat split; ndiv. Qed.

Lemma group2 (x y : N) :
  x < 256 -> y < 256 ->
  let n := (x * 256 + y) * 4 in
  let m := (n / 4096 * 64 + (n / 64) mod 64) * 64 + n mod 64 in
  n / 4096 < 64 /\ m / 1024 = x /\ (m / 4) mod 256 = y.
Proof.
  intros Hx Hy n m. assert (Hn : n < 262144) by (subst n; lia).
  assert (Hm : m = n) by (subst m; clearbody n; ndiv).
  rewrite Hm. subst n. repeat split; ndiv.
Qed.

Lemma group3 (x y z : N) :
  x < 256 -> y < 256 -> z < 256 ->
  let n := (x * 256 + y) * 256 + z in
  let m := ((n / 262144 * 64 + (n / 4096) mod 64) * 64 + (n / 64) mod 64) * 64
           + n mod 64 in
  n / 262144 < 64 /\ m / 65536 = x /\ (m / 256) mod 256 = y /\ m mod 256 = z.
Proof.
  intros Hx Hy Hz n m. assert (Hn : n < 16777216) by (subst n; lia).
  assert (Hm : m = n) by (subst m; clearbody n; ndiv).
  rewrite Hm. subst n. repeat split; ndiv.
Qed.

Lemma mod64_lt (n : N) : n mod 64 < 64.
Proof. ndiv. Qed.

(** Decoding the base64 encoding of a buffer gives the buffer back. *)
Lemma base64Decode_base64Encode (b : Buffer) :
  base64Decode (base64Encode b) = b.
Proof.
  unfold base64Decode. induction b as [|x|x y|x y z b IH] using list_ind3.
  - reflexivity.
  - destruct (group1 _ (to_N_lt x)) as (H1 & H2 & E).
    cbn [base64Encode].
    rewrite !sextets_base64Char by assumption.
    cbn [sextets N.eqb Pos.eqb pack].
    rewrite E, byte_of_to_N. reflexivity.
  - destruct (group2 _ _ (to_N_lt x) (to_N_lt y)) as (H1 & E1 & E2).
    cbn [base64Encode].
    rewrite !sextets_base64Char by (assumption || apply mod64_lt).
    cbn [sextets N.eqb Pos.eqb pack].
    rewrite E1, E2, !byte_of_to_N. reflexivity.
  - destruct (group3 _ _ _ (to_N_lt x) (to_N_lt y) (to_N_lt z))
      as (H1 & E1 & E2 & E3).
    cbn [base64Encode].
    rewrite !sextets_base64Char by (assumption || apply mod64_lt).
    cbn [pack]. rewrite IH, E1, E2, E3, !byte_of_to_N. reflexivity.
Qed.

Lemma base64Encode_Forall (P : N -> Prop) (b : Buffer) :
  (forall v, v < 64 -> P (base64Char v)) -> P 61 -> Forall P (base64Encode b).
Proof.
  intros HP Hpad. induction b as [|x|x y|x y z b IH] using list_ind3;
    cbn [base64Encode].
  - constructor.
  - destruct (group1 _ (to_N_lt x)) as (H1 & H2 & _).
    repeat (constructor; [first [exact Hpad | apply HP; assumption]|]).
    constructor.
  - destruct (group2 _ _ (to_N_lt x) (to_N_lt y)) as (H1 & _).
    repeat (constructor;
            [first [exact Hpad | apply HP; (assumption || apply mod64_lt)]|]).
    constructor.
  - destruct (group3 _ _ _ (to_N_lt x) (to_N_lt y) (to_N_lt z)) as (H1 & _).
    repeat (constructor; [apply HP; (assumption || apply mod64_lt)|]).
    exact IH.
Qed.

Lemma decode_encode (e : encoding) (b : Buffer) : decode e (encode e b) = b.
Proof.
  destruct e; [apply hexDecode_hexEncode | apply base64Decode_base64Encode].
Qed.

End EncodingFacts.

(** ** Strings *)

Module JSFacts.
Import JS.

Lemma split_no_sep (sep : N) (s : jsstring) :
  Forall (fun c => c <> sep) s -> split sep s = [s].
Proof.
  induction 1 as [|c s Hc _ IH]; [reflexivity|].
  cbn [split]. rewrite IH.
  destruct (N.eqb_spec c sep); [contradiction | reflexivity].
Qed.

Lemma split_app (sep : N) (a b : jsstring) :
  Forall (fun c => c <> sep) a ->
  split sep (a ++ sep :: b) = a :: split sep b.
Proof.
  induction 1 as [|c a Hc _ IH].
  - cbn [app split]. rewrite N.eqb_refl. reflexivity.
  - cbn [app split]. rewrite IH.
    destruct (N.eqb_spec c sep); [contradiction | reflexivity].
Qed.

(** The fields of a string of four parts, none of which holds the
    separator (the last may). *)
Lemma split_four (sep : N) (a b c d : jsstring) :
  Forall (fun x => x <> sep) a -> Forall (fun x => x <> sep) b ->
  Forall (fun x => x <> sep) c -> Forall (fun x => x <> sep) d ->
  split sep (a ++ sep :: b ++ sep :: c ++ sep :: d) = [a; b; c; d].
Proof.
  intros Ha Hb Hc Hd.
  rewrite !split_app by assumption. rewrite split_no_sep by assumption.
  reflexivity.
Qed.

Lemma split_nonempty (sep : N) (s : jsstring) : split sep s <> [].
Proof.
  destruct s as [|c s]; cbn [split]; [discriminate|].
  destruct (c =? sep); [discriminate|].
  destruct (split sep s); discriminate.
Qed.

End JSFacts.

(** ** The shape of the two programs *)

Lemma template_sha256 (iterations : Z) (salt derivedKey : jsstring) :
  template (lit "sha256") iterations salt derivedKey =
  lit "pbkdf2_sha256" ++ 36 :: JS.toString iterations ++ 36 :: salt
    ++ 36 :: derivedKey.
Proof. reflexivity. Qed.

Lemma hashPassword_short (p : jsstring) (o : Options) :
  (JS.length (JS.trim p) < 6)%Z ->
  hashPassword p o = Reject (Error "Password invalid: too short").
Proof.
  intros H. unfold hashPassword.
  destruct (Z.ltb_spec (JS.length (JS.trim p)) 6); [reflexivity | lia].
Qed.

Lemma hashPassword_current (p : jsstring) (o : Options) :
  (6 <= JS.length (JS.trim p))%Z -> isLegacy o = false ->
  hashPassword p o =
  Await (randomBytes 16) (fun saltBuffer =>
    Await (pbkdf2 p (OfBuffer saltBuffer) 150000 32 (lit "sha256"))
      (fun derivedKeyBuffer =>
         Resolve (template (lit "sha256") 150000
                    (Encoding.base64Encode saltBuffer)
                    (Encoding.base64Encode derivedKeyBuffer)))).
Proof.
  intros H Ho. unfold hashPassword. rewrite Ho.
  destruct (Z.ltb_spec (JS.length (JS.trim p)) 6); [lia | reflexivity].
Qed.

Lemma hashPassword_legacy (p : jsstring) (o : Options) :
  (6 <= JS.length (JS.trim p))%Z -> isLegacy o = true ->
  hashPassword p o =
  Await (randomBytes 16) (fun saltBuffer =>
    Await (pbkdf2 p (OfString (Encoding.hexEncode saltBuffer)) 100000 64
             (lit "sha256"))
      (fun derivedKey =>
         Resolve (template (lit "sha256") 100000
                    (Encoding.hexEncode saltBuffer)
                    (Encoding.hexEncode derivedKey)))).
Proof.
  intros H Ho. unfold hashPassword. rewrite Ho.
  destruct (Z.ltb_spec (JS.length (JS.trim p)) 6); [lia | reflexivity].
Qed.

(** Once the four assertions passed, [verifyPassword] awaits one key
    derivation and settles with the comparison.  Nothing is asked of the
    salt and key fields. *)
Lemma verifyPassword_parsed (p h : jsstring) (o : Options)
  (it salt dk : jsstring) (rest : list jsstring) (n : Z) :
  JS.split 36 h = lit "pbkdf2_sha256" :: it :: salt :: dk :: rest ->
  JS.parseInt (JS.VString it) = JS.Num n ->
  verifyPassword p h o =
  Await
    (pbkdf2 p
       (saltArg (isLegacy o)
          (Encoding.decode (encodingOf (isLegacy o)) salt))
       n
       (Buffer_length (Encoding.decode (encodingOf (isLegacy o)) dk))
       (lit "sha256"))
    (fun password =>
       settle (timingSafeEqual password
                 (Encoding.decode (encodingOf (isLegacy o)) dk))).
Proof.
  intros Hs Hn. unfold verifyPassword. rewrite Hs.
  cbn [JS.element nth_error JS.typeof]. rewrite Hn.
  reflexivity.
Qed.

(** [verifyPassword] either rejects with an assertion error before it
    awaits anything, or its first four fields passed the assertions. *)
Lemma verifyPassword_cases (p h : jsstring) (o : Options) :
  (exists msg, verifyPassword p h o = Reject (AssertionError msg)) \/
  (exists it salt dk rest n,
      JS.split 36 h = lit "pbkdf2_sha256" :: it :: salt :: dk :: rest /\
      JS.parseInt (JS.VString it) = JS.Num n).
Proof.
  unfold verifyPassword.
  destruct (JS.split 36 h) as [|a [|it [|salt [|dk rest]]]];
    cbn [JS.element nth_error JS.typeof]; unfold strictEqual at 1;
    cbn [JS.same];
    try (destruct (jsstring_eqb a (lit "pbkdf2_sha256")) eqn:Ea;
         [apply jsstring_eqb_eq in Ea; subst a |]);
    try (left; eexists; reflexivity).
  destruct (JS.parseInt (JS.VString it)) as [|n] eqn:En.
  - left. eexists. reflexivity.
  - right. exists it, salt, dk, rest, n. split; [reflexivity | exact En].
Qed.

Lemma timingSafeEqual_same_length (a b : Buffer) :
  Buffer_length a = Buffer_length b ->
  timingSafeEqual a b = Ok (Buffer_eqb a b).
Proof.
  unfold Buffer_length, timingSafeEqual. intros H.
  apply Nat2Z.inj in H. rewrite H, Nat.eqb_refl. reflexivity.
Qed.

(** ** Running the two programs *)

Section Running.

Variable B : Backend.
Hypothesis B_lawful : lawful B.

Lemma derive_length pw s it kl d out :
  derive B pw s it kl d = Ok out -> Buffer_length out = kl.
Proof. apply B_lawful. Qed.

Lemma derive_total pw s it kl :
  (1 <= it <= 2147483647)%Z -> (1 <= kl <= 2147483647)%Z ->
  exists out,
    derive B pw s it kl (lit "sha256") = Ok out /\ Buffer_length out = kl.
Proof.
  intros Hit Hkl. destruct B_lawful as [_ Htot].
  destruct (Htot pw s it kl Hit Hkl) as [out Hout].
  exists out. split; [exact Hout | exact (derive_length _ _ _ _ _ _ Hout)].
Qed.

(** A run of [verifyPassword] whose key derivation resolved. *)
Lemma run_verifyPassword (p h : jsstring) (o : Options)
  (it salt dk : jsstring) (rest : list jsstring) (n : Z) (e : entropy)
  (out : Buffer) :
  let enc := encodingOf (isLegacy o) in
  let cmd := pbkdf2 p (saltArg (isLegacy o) (Encoding.decode enc salt)) n
               (Buffer_length (Encoding.decode enc dk)) (lit "sha256") in
  JS.split 36 h = lit "pbkdf2_sha256" :: it :: salt :: dk :: rest ->
  JS.parseInt (JS.VString it) = JS.Num n ->
  derive B p (saltArg (isLegacy o) (Encoding.decode enc salt)) n
    (Buffer_length (Encoding.decode enc dk)) (lit "sha256") = Ok out ->
  run B (verifyPassword p h o) e =
  (Ok (Buffer_eqb out (Encoding.decode enc dk)), [cmd]).
Proof.
  intros enc cmd Hs Hn Hd.
  rewrite (verifyPassword_parsed p h o it salt dk rest n Hs Hn).
  cbn [run]. fold enc. rewrite Hd.
  rewrite timingSafeEqual_same_length by exact (derive_length _ _ _ _ _ _ Hd).
  reflexivity.
Qed.

(** A run of [hashPassword] in the current mode. *)
Lemma run_hashPassword_current (p : jsstring) (o : Options) (e : entropy) :
  (6 <= JS.length (JS.trim p))%Z -> isLegacy o = false ->
  let salt := fst (draw 16 e) in
  exists dk,
    derive B p (OfBuffer salt) 150000 32 (lit "sha256") = Ok dk /\
    List.length dk = 32%nat /\
    run B (hashPassword p o) e =
    (Ok (template (lit "sha256") 150000 (Encoding.base64Encode salt)
           (Encoding.base64Encode dk)),
     [randomBytes 16; pbkdf2 p (OfBuffer salt) 150000 32 (lit "sha256")]).
Proof.
  intros Hp Ho salt.
  destruct (derive_total p (OfBuffer salt) 150000 32)
    as (dk & Hd & Hl); [lia | lia |].
  exists dk. split; [exact Hd|]. split.
  - unfold Buffer_length in Hl. lia.
  - rewrite (hashPassword_current p o Hp Ho). subst salt.
    unfold draw in *. cbn [fst] in *. cbn [run].
    change (Z.to_nat 16) with 16%nat. unfold draw. rewrite Hd. reflexivity.
Qed.

(** A run of [hashPassword] in the legacy mode. *)
Lemma run_hashPassword_legacy (p : jsstring) (o : Options) (e : entropy) :
  (6 <= JS.length (JS.trim p))%Z -> isLegacy o = true ->
  let salt := fst (draw 16 e) in
  exists dk,
    derive B p (OfString (Encoding.hexEncode salt)) 100000 64 (lit "sha256")
      = Ok dk /\
    List.length dk = 64%nat /\
    run B (hashPassword p o) e =
    (Ok (template (lit "sha256") 100000 (Encoding.hexEncode salt)
           (Encoding.hexEncode dk)),
     [randomBytes 16;
      pbkdf2 p (OfString (Encoding.hexEncode salt)) 100000 64
        (lit "sha256")]).
Proof.
  intros Hp Ho salt.
  destruct (derive_total p (OfString (Encoding.hexEncode salt)) 100000 64)
    as (dk & Hd & Hl); [lia | lia |].
  exists dk. split; [exact Hd|]. split.
  - unfold Buffer_length in Hl. lia.
  - rewrite (hashPassword_legacy p o Hp Ho). subst salt.
    unfold draw in *. cbn [fst] in *. cbn [run].
    change (Z.to_nat 16) with 16%nat. unfold draw. rewrite Hd. reflexivity.
Qed.

End Running.

(** ** A hash read back *)

Lemma hexEncode_no_dollar (b : Buffer) :
  Forall (fun c => c <> 36) (Encoding.hexEncode b).
Proof.
  apply EncodingFacts.hexEncode_Forall. intros n Hn.
  unfold Encoding.hexDigit. ncases.
Qed.

Lemma base64Encode_no_dollar (b : Buffer) :
  Forall (fun c => c <> 36) (Encoding.base64Encode b).
Proof.
  apply EncodingFacts.base64Encode_Forall; [|discriminate]. intros v Hv.
  unfold Encoding.base64Char. ncases.
Qed.

Lemma encode_no_dollar (enc : Encoding.encoding) (b : Buffer) :
  Forall (fun c => c <> 36) (Encoding.encode enc b).
Proof.
  destruct enc; [apply hexEncode_no_dollar | apply base64Encode_no_dollar].
Qed.

Ltac no_dollar := repeat constructor; discriminate.

(** The fields of the string [hashPassword] resolves to. *)
Lemma split_template (iterations : Z) (salt derivedKey : jsstring) :
  Forall (fun c => c <> 36) (JS.toString iterations) ->
  Forall (fun c => c <> 36) salt ->
  Forall (fun c => c <> 36) derivedKey ->
  JS.split 36 (template (lit "sha256") iterations salt derivedKey) =
  [lit "pbkdf2_sha256"; JS.toString iterations; salt; derivedKey].
Proof.
  intros Hi Hs Hd. rewrite template_sha256.
  apply JSFacts.split_four; try assumption. no_dollar.
Qed.

Lemma Toy_lawful : lawful Toy.backend.
Proof.
  split.
  - intros pw s it kl d out. cbn [derive Toy.backend]. unfold Toy.derive.
    destruct (_ && _)%bool eqn:E; [|discriminate].
    destruct (kl =? 0)%Z; [discriminate|].
    intros H. injection H as <-. unfold Buffer_length.
    rewrite length_map, length_seq.
    apply andb_prop in E. destruct E as [E _].
    apply andb_prop in E. destruct E as [_ E]. lia.
  - intros pw s it kl Hit Hkl. cbn [derive Toy.backend]. unfold Toy.derive.
    destruct (_ && _)%bool eqn:E.
    + destruct (Z.eqb_spec kl 0); [lia | eexists; reflexivity].
    + exfalso. repeat (apply andb_false_iff in E; destruct E as [E|E]); lia.
Qed.

(** ** A hash verified in its own mode *)

Section HashThenVerify.

Variable B : Backend.
Hypothesis B_lawful : lawful B.

(** Both modes of [hashPassword] at once. *)
Lemma run_hashPassword (p : jsstring) (o : Options) (e : entropy) :
  (6 <= JS.length (JS.trim p))%Z ->
  let enc := encodingOf (isLegacy o) in
  let it := iterationsOf (isLegacy o) in
  let kl := keylenOf (isLegacy o) in
  let salt := fst (draw 16 e) in
  exists dk,
    derive B p (saltArg (isLegacy o) salt) it kl (lit "sha256") = Ok dk /\
    Buffer_length dk = kl /\
    run B (hashPassword p o) e =
    (Ok (template (lit "sha256") it (Encoding.encode enc salt)
           (Encoding.encode enc dk)),
     [randomBytes 16;
      pbkdf2 p (saltArg (isLegacy o) salt) it kl (lit "sha256")]).
Proof.
  intros Hp. destruct (isLegacy o) eqn:Ho; cbv zeta.
  - destruct (run_hashPassword_legacy B B_lawful p o e Hp Ho)
      as (dk & Hd & Hl & Hr).
    exists dk. split; [exact Hd|]. split; [|exact Hr].
    unfold Buffer_length. rewrite Hl. reflexivity.
  - destruct (run_hashPassword_current B B_lawful p o e Hp Ho)
      as (dk & Hd & Hl & Hr).
    exists dk. split; [exact Hd|]. split; [|exact Hr].
    unfold Buffer_length. rewrite Hl. reflexivity.
Qed.

(** Verifying a plaintext [q], in the mode of [o], against a hash that
    holds the salt [salt] and the key [dk] in the encoding of that mode. *)
Lemma run_verifyPassword_encoded (q : jsstring) (o : Options) (e : entropy)
  (salt dk out : Buffer) :
  let enc := encodingOf (isLegacy o) in
  let it := iterationsOf (isLegacy o) in
  let cmd := pbkdf2 q (saltArg (isLegacy o) salt) it (Buffer_length dk)
               (lit "sha256") in
  derive B q (saltArg (isLegacy o) salt) it (Buffer_length dk) (lit "sha256")
  = Ok out ->
  run B
    (verifyPassword q
       (template (lit "sha256") it (Encoding.encode enc salt)
          (Encoding.encode enc dk)) o) e =
  (Ok (Buffer_eqb out dk), [cmd]).
Proof.
  intros enc it cmd Hd.
  assert (Hit : Forall (fun c => c <> 36) (JS.toString it) /\
                JS.parseInt (JS.VString (JS.toString it)) = JS.Num it).
  { subst it. destruct (isLegacy o); split; try reflexivity; no_dollar. }
  destruct Hit as [Hnd Hn].
  pose proof (split_template it _ _ Hnd (encode_no_dollar enc salt)
                (encode_no_dollar enc dk)) as Hs.
  pose proof (run_verifyPassword B B_lawful q _ o _ _ _ [] it e out Hs Hn)
    as Hr.
  cbv zeta in Hr. fold enc in Hr.
  rewrite !EncodingFacts.decode_encode in Hr.
  exact (Hr Hd).
Qed.

End HashThenVerify.

Lemma draw_length (n : nat) (e : entropy) : List.length (fst (draw n e)) = n.
Proof. unfold draw. cbn [fst]. rewrite length_map, length_seq. reflexivity. Qed.

(** ** Hex digits read as base64 *)





(** ** Any run of verifyPassword past the assertions *)

Section AnyRun.

Variable B : Backend.
Hypothesis B_lawful : lawful B.

(** The run ends with the rejection of the key derivation or with the
    boolean of the comparison. *)
Lemma run_verifyPassword_any (p h : jsstring) (o : Options)
  (it salt dk : jsstring) (rest : list jsstring) (n : Z) (e : entropy) :
  let enc := encodingOf (isLegacy o) in
  let s := saltArg (isLegacy o) (Encoding.decode enc salt) in
  let stored := Encoding.decode enc dk in
  JS.split 36 h = lit "pbkdf2_sha256" :: it :: salt :: dk :: rest ->
  JS.parseInt (JS.VString it) = JS.Num n ->
  run B (verifyPassword p h o) e =
  (match derive B p s n (Buffer_length stored) (lit "sha256") with
   | Ok out => Ok (Buffer_eqb out stored)
   | Err x => Err x
   end,
   [pbkdf2 p s n (Buffer_length stored) (lit "sha256")]).
Proof.
  intros enc s stored Hs Hn.
  rewrite (verifyPassword_parsed p h o it salt dk rest n Hs Hn).
  cbn [run]. fold enc. fold s. fold stored.
  destruct (derive B p s n (Buffer_length stored) (lit "sha256"))
    as [out | x] eqn:Hd; [|reflexivity].
  rewrite timingSafeEqual_same_length
    by exact (derive_length B B_lawful _ _ _ _ _ _ Hd).
  reflexivity.
Qed.

(** A key field that decodes to no byte: the derivation is asked for zero
    bytes, and a run that gets them returns [true]. *)
Lemma run_verifyPassword_empty_key (q h : jsstring) (o : Options)
  (it salt dk : jsstring) (rest : list jsstring) (n : Z) (e : entropy) :
  let s := saltArg (isLegacy o)
             (Encoding.decode (encodingOf (isLegacy o)) salt) in
  JS.split 36 h = lit "pbkdf2_sha256" :: it :: salt :: dk :: rest ->
  JS.parseInt (JS.VString it) = JS.Num n ->
  Encoding.decode (encodingOf (isLegacy o)) dk = [] ->
  run B (verifyPassword q h o) e =
  (match derive B q s n 0 (lit "sha256") with
   | Ok _ => Ok true
   | Err x => Err x
   end,
   [pbkdf2 q s n 0 (lit "sha256")]).
Proof.
  intros s Hs Hn Hk.
  pose proof (run_verifyPassword_any q h o it salt dk rest n e Hs Hn) as Hr.
  cbv zeta in Hr. rewrite Hk in Hr. fold s in Hr.
  change (Buffer_length []) with 0%Z in Hr. rewrite Hr.
  destruct (derive B q s n 0 (lit "sha256")) as [out | x] eqn:Hd;
    [|reflexivity].
  pose proof (derive_length B B_lawful _ _ _ _ _ _ Hd) as Hl.
  destruct out as [|b out]; [reflexivity|].
  unfold Buffer_length in Hl. cbn [List.length] in Hl. lia.
Qed.

End AnyRun.

(** * The claims *)

(** ** verifyPassword: validation of the stored hash *)

(** C1 (as stated, refuted): hashes that the specification counts as
    malformed and that pass the assertions.  With an empty salt and an
    empty key field [pbkdf2] is called, and the error is the one of that
    call; with an empty salt field and a key, and with five fields, the run
    returns a boolean; the iteration counts [0] and [-5] are handed to
    [pbkdf2]. *)
Lemma verifyPassword_accepts_claimed_malformed :
  run Toy.backend
    (verifyPassword (lit "hunter2") (lit "pbkdf2_sha256$1$$") noOptions)
    Toy.tape =
  (Err (Error "Deriving bits failed"),
   [pbkdf2 (lit "hunter2") (OfBuffer []) 1 0 (lit "sha256")]) /\
  (forall (B : Backend) (e : entropy),
      lawful B ->
      exists b,
        run B
          (verifyPassword (lit "hunter2") (lit "pbkdf2_sha256$1$$AAAA")
             noOptions) e =
        (Ok b, [pbkdf2 (lit "hunter2") (OfBuffer []) 1 3 (lit "sha256")])) /\
  (List.length (JS.split 36 (lit "pbkdf2_sha256$1$AAAA$AAAA$x")) = 5%nat /\
   forall (B : Backend) (e : entropy),
     lawful B ->
     exists b,
       run B
         (verifyPassword (lit "hunter2") (lit "pbkdf2_sha256$1$AAAA$AAAA$x")
            noOptions) e =
       (Ok b,
        [pbkdf2 (lit "hunter2") (OfBuffer [Byte.x00; Byte.x00; Byte.x00]) 1 3
           (lit "sha256")])) /\
  trace Toy.backend
    (verifyPassword (lit "hunter2") (lit "pbkdf2_sha256$0$$") noOptions)
    Toy.tape =
  [pbkdf2 (lit "hunter2") (OfBuffer []) 0 0 (lit "sha256")] /\
  trace Toy.backend
    (verifyPassword (lit "hunter2") (lit "pbkdf2_sha256$-5$$") noOptions)
    Toy.tape =
  [pbkdf2 (lit "hunter2") (OfBuffer []) (-5) 0 (lit "sha256")].
Proof.
  split; [vm_compute; reflexivity|]. split.
  { intros B e HB.
    destruct (derive_total B HB (lit "hunter2") (OfBuffer []) 1 3)
      as (out & Hd & _); [lia | lia |].
    eexists.
    exact (run_verifyPassword B HB (lit "hunter2")
             (lit "pbkdf2_sha256$1$$AAAA") noOptions (lit "1") []
             (lit "AAAA") [] 1 e out eq_refl eq_refl Hd). }
  split.
  { split; [reflexivity|]. intros B e HB.
    destruct (derive_total B HB (lit "hunter2")
                (OfBuffer [Byte.x00; Byte.x00; Byte.x00]) 1 3)
      as (out & Hd & _); [lia | lia |].
    eexists.
    exact (run_verifyPassword B HB (lit "hunter2")
             (lit "pbkdf2_sha256$1$AAAA$AAAA$x") noOptions (lit "1")
             (lit "AAAA") (lit "AAAA") [lit "x"] 1 e out eq_refl eq_refl
             Hd). }
  split; vm_compute; reflexivity.
Qed.

(** C1 (amended): [verifyPassword] rejects with an assertion error exactly
    when the split yields fewer than four fields, or the first field is
    not [pbkdf2_sha256], or [parseInt] of the second field is [NaN]; such
    a rejection comes before anything is awaited, so a run of it performs
    no command.  Fields after the fourth, empty salt and key fields, and
    iteration counts that are not positive do not lead to it. *)
Theorem verifyPassword_rejects_malformed (p h : jsstring) (o : Options) :
  ((exists msg, verifyPassword p h o = Reject (AssertionError msg)) <->
   ((List.length (JS.split 36 h) < 4)%nat \/
    JS.element (JS.split 36 h) 0 <> JS.VString (lit "pbkdf2_sha256") \/
    JS.parseInt (JS.element (JS.split 36 h) 1) = JS.NaN)) /\
  forall msg,
    verifyPassword p h o = Reject (AssertionError msg) ->
    forall (B : Backend) (e : entropy),
      run B (verifyPassword p h o) e = (Err (AssertionError msg), []).
Proof.
  split.
  - destruct (verifyPassword_cases p h o)
      as [[msg Hr] | (it & salt & dk & rest & n & Hs & Hn)].
    + split; [intros _ | intros _; exists msg; exact Hr].
      destruct (JS.split 36 h) as [|a [|it [|salt [|dk rest]]]] eqn:Hs;
        cbn [List.length]; try (left; lia).
      destruct (jsstring_eqb a (lit "pbkdf2_sha256")) eqn:Ea.
      * apply jsstring_eqb_eq in Ea. subst a.
        destruct (JS.parseInt (JS.VString it)) as [|n] eqn:Hn.
        -- right. right. exact Hn.
        -- rewrite (verifyPassword_parsed p h o it salt dk rest n Hs Hn)
             in Hr.
           discriminate Hr.
      * right. left. cbn [JS.element nth_error]. intros H.
        injection H as ->. rewrite jsstring_eqb_refl in Ea. discriminate Ea.
    + rewrite (verifyPassword_parsed p h o it salt dk rest n Hs Hn).
      rewrite Hs. cbn [List.length JS.element nth_error]. rewrite Hn.
      split; [intros [msg H]; discriminate H|].
      intros [H | [H | H]];
        [lia | exfalso; apply H; reflexivity | discriminate H].
  - intros msg Hr B e. rewrite Hr. reflexivity.
Qed.

Lemma verifyPassword_rejects_malformed_witness :
  JS.parseInt (JS.element (JS.split 36 (lit "pbkdf2_sha256$abc$AA==$AA==")) 1)
  = JS.NaN /\
  exists msg,
    verifyPassword (lit "hunter2") (lit "pbkdf2_sha256$abc$AA==$AA==")
      noOptions = Reject (AssertionError msg).
Proof.
  split; [reflexivity|].
  apply (proj1 (verifyPassword_rejects_malformed (lit "hunter2")
                  (lit "pbkdf2_sha256$abc$AA==$AA==") noOptions)).
  right. right. reflexivity.
Defined.




(** ** hashPassword followed by verifyPassword *)

(** C3: for a plaintext of trimmed length at least 6, [hashPassword] with
    the default options resolves to a hash, and [verifyPassword] of the
    same plaintext against that hash, with the default options, resolves to
    [true]. *)
Theorem verifyPassword_hashPassword_roundtrip
  (B : Backend) (p : jsstring) (e : entropy) :
  lawful B ->
  (6 <= JS.length (JS.trim p))%Z ->
  exists h,
    outcome B (hashPassword p noOptions) e = Ok h /\
    forall e', outcome B (verifyPassword p h noOptions) e' = Ok true.
Proof.
  intros HB Hp.
  destruct (run_hashPassword B HB p noOptions e Hp) as (dk & Hd & Hl & Hr).
  cbv zeta in *. eexists. unfold outcome. rewrite Hr.
  split; [reflexivity|]. intros e'.
  rewrite <- Hl in Hd.
  rewrite (run_verifyPassword_encoded B HB p noOptions e' _ dk dk Hd).
  cbn [fst]. rewrite Buffer_eqb_refl. reflexivity.
Qed.

Lemma verifyPassword_hashPassword_roundtrip_witness :
  lawful Toy.backend /\
  (6 <= JS.length (JS.trim (lit " correct horse ")))%Z /\
  exists h,
    outcome Toy.backend (hashPassword (lit " correct horse ") noOptions)
      Toy.tape = Ok h /\
    forall e',
      outcome Toy.backend (verifyPassword (lit " correct horse ") h noOptions)
        e' = Ok true.
Proof.
  split; [exact Toy_lawful|]. split; [discriminate|].
  apply (verifyPassword_hashPassword_roundtrip Toy.backend
           (lit " correct horse ") Toy.tape Toy_lawful).
  discriminate.
Defined.

(** ** verifyPassword: decoding *)

(** C5 (as stated, refuted): fields that are not well-formed in the
    encoding of the mode do not make [verifyPassword] fail.  In legacy mode
    the salt [0g] decodes to no byte and the key [abzz12] to the one byte
    [ab]; in current mode [!!!!] decodes to no byte and [?A?A*=AA] to one
    byte.  Both runs derive a key and return a boolean; with the fields
    [zz] both decode to no byte and [pbkdf2] is called for a key of length
    zero. *)
Lemma verifyPassword_accepts_undecodable_fields :
  run Toy.backend
    (verifyPassword (lit "hunter2") (lit "pbkdf2_sha256$1$0g$abzz12")
       legacyOptions) Toy.tape =
  (Ok false, [pbkdf2 (lit "hunter2") (OfString []) 1 1 (lit "sha256")]) /\
  run Toy.backend
    (verifyPassword (lit "hunter2") (lit "pbkdf2_sha256$1$!!!!$?A?A*=AA")
       noOptions) Toy.tape =
  (Ok false, [pbkdf2 (lit "hunter2") (OfBuffer []) 1 1 (lit "sha256")]) /\
  run Toy.backend
    (verifyPassword (lit "hunter2") (lit "pbkdf2_sha256$1$zz$zz")
       legacyOptions) Toy.tape =
  (Err (Error "Deriving bits failed"),
   [pbkdf2 (lit "hunter2") (OfString []) 1 0 (lit "sha256")]).
Proof. repeat split; vm_compute; reflexivity. Qed.

(** C5 (amended): decoding never fails.  Once the assertions passed,
    whatever the salt and key fields hold, [Buffer.from] returns a buffer
    for each, [verifyPassword] awaits the key derivation on these buffers,
    and a run whose derivation resolves returns the boolean of the
    comparison. *)
Theorem verifyPassword_decodes_leniently (p h : jsstring) (o : Options)
  (it salt dk : jsstring) (rest : list jsstring) (n : Z) :
  JS.split 36 h = lit "pbkdf2_sha256" :: it :: salt :: dk :: rest ->
  JS.parseInt (JS.VString it) = JS.Num n ->
  let enc := encodingOf (isLegacy o) in
  let saltBuffer := Encoding.decode enc salt in
  let derivedKeyBuffer := Encoding.decode enc dk in
  let cmd := pbkdf2 p (saltArg (isLegacy o) saltBuffer) n
               (Buffer_length derivedKeyBuffer) (lit "sha256") in
  Buffer_from (JS.VString salt) enc = Ok saltBuffer /\
  Buffer_from (JS.VString dk) enc = Ok derivedKeyBuffer /\
  verifyPassword p h o =
  Await cmd
    (fun password => settle (timingSafeEqual password derivedKeyBuffer)) /\
  forall (B : Backend) (e : entropy) (out : Buffer),
    lawful B ->
    derive B p (saltArg (isLegacy o) saltBuffer) n
      (Buffer_length derivedKeyBuffer) (lit "sha256") = Ok out ->
    run B (verifyPassword p h o) e =
    (Ok (Buffer_eqb out derivedKeyBuffer), [cmd]).
Proof.
  intros Hs Hn enc saltBuffer derivedKeyBuffer cmd.
  split; [reflexivity|]. split; [reflexivity|]. split.
  - exact (verifyPassword_parsed p h o it salt dk rest n Hs Hn).
  - intros B e out HB Hd.
    exact (run_verifyPassword B HB p h o it salt dk rest n e out Hs Hn Hd).
Qed.

Lemma verifyPassword_decodes_leniently_witness :
  JS.split 36 (lit "pbkdf2_sha256$7$0g$abzz12") =
  [lit "pbkdf2_sha256"; lit "7"; lit "0g"; lit "abzz12"] /\
  JS.parseInt (JS.VString (lit "7")) = JS.Num 7 /\
  verifyPassword (lit "hunter2") (lit "pbkdf2_sha256$7$0g$abzz12")
    legacyOptions =
  Await (pbkdf2 (lit "hunter2") (OfString []) 7 1 (lit "sha256"))
    (fun password => settle (timingSafeEqual password [Byte.xab])).
Proof.
  split; [reflexivity|]. split; [reflexivity|].
  apply (verifyPassword_decodes_leniently (lit "hunter2")
           (lit "pbkdf2_sha256$7$0g$abzz12") legacyOptions
           (lit "7") (lit "0g") (lit "abzz12") [] 7); reflexivity.
Defined.

(** ** hashPassword: the length safeguard and the format *)

(** C6: a plaintext whose trimmed length is below 6 makes [hashPassword]
    reject with the error "Password invalid: too short", whatever the
    options; the promise is the rejection itself, so no run of it draws a
    salt or derives a key. *)
Theorem hashPassword_rejects_short_password (p : jsstring) (o : Options) :
  (JS.length (JS.trim p) < 6)%Z ->
  hashPassword p o = Reject (Error "Password invalid: too short") /\
  forall (B : Backend) (e : entropy),
    run B (hashPassword p o) e =
    (Err (Error "Password invalid: too short"), []).
Proof.
  intros H. rewrite (hashPassword_short p o H).
  split; [reflexivity | intros B e; reflexivity].
Qed.

Lemma hashPassword_rejects_short_password_witness :
  (JS.length (JS.trim (lit "  ab c  ")) < 6)%Z /\
  hashPassword (lit "  ab c  ") legacyOptions =
  Reject (Error "Password invalid: too short").
Proof.
  split; [reflexivity|].
  apply (hashPassword_rejects_short_password (lit "  ab c  ") legacyOptions).
  reflexivity.
Defined.

(** C7: for a plaintext of trimmed length at least 6, [hashPassword] with
    the default options resolves to [pbkdf2_sha256$150000$], the base64 of
    a 16-byte salt, [$], and the base64 of a 32-byte key; with
    [{legacy: true}] it resolves to [pbkdf2_sha256$100000$], the hex of a
    16-byte salt, [$], and the hex of a 64-byte key. *)
Theorem hashPassword_format (B : Backend) (p : jsstring) (e : entropy) :
  lawful B ->
  (6 <= JS.length (JS.trim p))%Z ->
  (exists salt dk : Buffer,
      List.length salt = 16%nat /\ List.length dk = 32%nat /\
      outcome B (hashPassword p noOptions) e =
      Ok (lit "pbkdf2_sha256$150000$" ++ Encoding.base64Encode salt
            ++ lit "$" ++ Encoding.base64Encode dk)) /\
  (exists salt dk : Buffer,
      List.length salt = 16%nat /\ List.length dk = 64%nat /\
      outcome B (hashPassword p legacyOptions) e =
      Ok (lit "pbkdf2_sha256$100000$" ++ Encoding.hexEncode salt
            ++ lit "$" ++ Encoding.hexEncode dk)).
Proof.
  intros HB Hp. split.
  - destruct (run_hashPassword_current B HB p noOptions e Hp eq_refl)
      as (dk & Hd & Hl & Hr).
    exists (fst (draw 16 e)), dk.
    split; [apply draw_length|]. split; [exact Hl|].
    unfold outcome. rewrite Hr. reflexivity.
  - destruct (run_hashPassword_legacy B HB p legacyOptions e Hp eq_refl)
      as (dk & Hd & Hl & Hr).
    exists (fst (draw 16 e)), dk.
    split; [apply draw_length|]. split; [exact Hl|].
    unfold outcome. rewrite Hr. reflexivity.
Qed.

Lemma hashPassword_format_witness :
  lawful Toy.backend /\
  (6 <= JS.length (JS.trim (lit "hunter2")))%Z /\
  (exists salt dk : Buffer,
      List.length salt = 16%nat /\ List.length dk = 32%nat /\
      outcome Toy.backend (hashPassword (lit "hunter2") noOptions) Toy.tape =
      Ok (lit "pbkdf2_sha256$150000$" ++ Encoding.base64Encode salt
            ++ lit "$" ++ Encoding.base64Encode dk)) /\
  (exists salt dk : Buffer,
      List.length salt = 16%nat /\ List.length dk = 64%nat /\
      outcome Toy.backend (hashPassword (lit "hunter2") legacyOptions)
        Toy.tape =
      Ok (lit "pbkdf2_sha256$100000$" ++ Encoding.hexEncode salt
            ++ lit "$" ++ Encoding.hexEncode dk)).
Proof.
  split; [exact Toy_lawful|]. split; [discriminate|].
  apply (hashPassword_format Toy.backend (lit "hunter2") Toy.tape Toy_lawful).
  discriminate.
Defined.

(** ** The arguments of the key derivation *)

(** C8: the salt [hashPassword] passes to [pbkdf2] is the hex string of
    the 16 random bytes in legacy mode and the 16 bytes themselves
    otherwise; [verifyPassword], in the same mode and on the hash that
    [hashPassword] resolved to, passes the same salt, with the same
    iteration count and key length. *)
Theorem kdf_salt_same_in_hash_and_verify
  (B : Backend) (p : jsstring) (o : Options) (e : entropy) :
  lawful B ->
  (6 <= JS.length (JS.trim p))%Z ->
  let salt := fst (draw 16 e) in
  let s := if isLegacy o then OfString (Encoding.hexEncode salt)
           else OfBuffer salt in
  List.length salt = 16%nat /\
  exists h it kl,
    run B (hashPassword p o) e =
    (Ok h, [randomBytes 16; pbkdf2 p s it kl (lit "sha256")]) /\
    forall e',
      trace B (verifyPassword p h o) e' = [pbkdf2 p s it kl (lit "sha256")].
Proof.
  intros HB Hp salt s. split; [apply draw_length|].
  destruct (run_hashPassword B HB p o e Hp) as (dk & Hd & Hl & Hr).
  cbv zeta in *. fold salt in Hd, Hr.
  change (saltArg (isLegacy o) salt) with s in Hd, Hr.
  eexists. exists (iterationsOf (isLegacy o)), (keylenOf (isLegacy o)).
  split; [exact Hr|]. intros e'.
  rewrite <- Hl in Hd. unfold trace.
  rewrite (run_verifyPassword_encoded B HB p o e' salt dk dk Hd).
  cbn [snd]. rewrite Hl. reflexivity.
Qed.

Lemma kdf_salt_same_in_hash_and_verify_witness :
  lawful Toy.backend /\
  (6 <= JS.length (JS.trim (lit "hunter2")))%Z /\
  exists h it kl,
    run Toy.backend (hashPassword (lit "hunter2") legacyOptions) Toy.tape =
    (Ok h,
     [randomBytes 16;
      pbkdf2 (lit "hunter2")
        (OfString (lit "000102030405060708090a0b0c0d0e0f")) it kl
        (lit "sha256")]) /\
    forall e',
      trace Toy.backend (verifyPassword (lit "hunter2") h legacyOptions) e' =
      [pbkdf2 (lit "hunter2")
         (OfString (lit "000102030405060708090a0b0c0d0e0f")) it kl
         (lit "sha256")].
Proof.
  split; [exact Toy_lawful|]. split; [discriminate|].
  apply (kdf_salt_same_in_hash_and_verify Toy.backend (lit "hunter2")
           legacyOptions Toy.tape Toy_lawful).
  discriminate.
Defined.

(** C9: when [verifyPassword] reaches its key derivation, the key length
    it asks for is the byte length of the decoded stored key; every buffer
    the derivation resolves to has that length, so [timingSafeEqual]
    returns the boolean of the comparison and not its length error. *)
Theorem verifyPassword_compares_equal_lengths (B : Backend)
  (p h : jsstring) (o : Options) (c : crypto) (k : Buffer -> Promise bool) :
  lawful B ->
  verifyPassword p h o = Await c k ->
  exists (s : BinaryLike) (it : Z) (dk : jsstring),
    JS.element (JS.split 36 h) 3 = JS.VString dk /\
    let stored := Encoding.decode (encodingOf (isLegacy o)) dk in
    c = pbkdf2 p s it (Buffer_length stored) (lit "sha256") /\
    forall password,
      derive B p s it (Buffer_length stored) (lit "sha256") = Ok password ->
      List.length password = List.length stored /\
      timingSafeEqual password stored = Ok (Buffer_eqb password stored) /\
      k password = Resolve (Buffer_eqb password stored).
Proof.
  intros HB H.
  destruct (verifyPassword_cases p h o)
    as [[msg Hr] | (it & salt & dk & rest & n & Hs & Hn)].
  - rewrite Hr in H. discriminate H.
  - rewrite (verifyPassword_parsed p h o it salt dk rest n Hs Hn) in H.
    injection H as Hc Hk.
    exists (saltArg (isLegacy o)
              (Encoding.decode (encodingOf (isLegacy o)) salt)), n, dk.
    split; [rewrite Hs; reflexivity|].
    intros stored. split; [symmetry; exact Hc|].
    intros password Hd.
    pose proof (derive_length B HB _ _ _ _ _ _ Hd) as Hl.
    pose proof (timingSafeEqual_same_length password stored Hl) as Ht.
    split; [unfold Buffer_length in Hl; lia|]. split; [exact Ht|].
    rewrite <- Hk. fold stored. rewrite Ht. reflexivity.
Qed.

Lemma verifyPassword_compares_equal_lengths_witness :
  exists (s : BinaryLike) (it : Z) (dk : jsstring),
    JS.element (JS.split 36 (lit "pbkdf2_sha256$7$AAAA$q80=")) 3
    = JS.VString dk /\
    let stored := Encoding.decode (encodingOf (isLegacy noOptions)) dk in
    pbkdf2 (lit "hunter2") (OfBuffer [Byte.x00; Byte.x00; Byte.x00]) 7 2
      (lit "sha256")
    = pbkdf2 (lit "hunter2") s it (Buffer_length stored) (lit "sha256") /\
    forall password,
      derive Toy.backend (lit "hunter2") s it (Buffer_length stored)
        (lit "sha256") = Ok password ->
      List.length password = List.length stored /\
      timingSafeEqual password stored = Ok (Buffer_eqb password stored) /\
      settle (timingSafeEqual password [Byte.xab; Byte.xcd])
      = Resolve (Buffer_eqb password stored).
Proof.
  apply (verifyPassword_compares_equal_lengths Toy.backend (lit "hunter2")
           (lit "pbkdf2_sha256$7$AAAA$q80=") noOptions
           (pbkdf2 (lit "hunter2") (OfBuffer [Byte.x00; Byte.x00; Byte.x00])
              7 2 (lit "sha256"))
           (fun password =>
              settle (timingSafeEqual password [Byte.xab; Byte.xcd]))
           Toy_lawful).
  reflexivity.
Defined.

(** C10: the plaintext reaches [pbkdf2] as it was given.  [hashPassword]
    trims only for the length test and derives the key from [p];
    [verifyPassword] passes on the plaintext it received.  So for a [p]
    that trimming changes, verifying [trim p] against the hash of [p]
    issues a different [pbkdf2] command, and compares the key derived from
    [trim p] with the key derived from [p], salt, iteration count and key
    length being the same. *)
Theorem plaintext_reaches_kdf_untrimmed
  (B : Backend) (p : jsstring) (o : Options) (e : entropy) :
  lawful B ->
  (6 <= JS.length (JS.trim p))%Z ->
  JS.trim p <> p ->
  (forall q h' o' c k,
      verifyPassword q h' o' = Await c k ->
      exists s it kl d, c = pbkdf2 q s it kl d) /\
  exists h s it kl k1 k2,
    run B (hashPassword p o) e =
    (Ok h, [randomBytes 16; pbkdf2 p s it kl (lit "sha256")]) /\
    derive B p s it kl (lit "sha256") = Ok k1 /\
    derive B (JS.trim p) s it kl (lit "sha256") = Ok k2 /\
    pbkdf2 (JS.trim p) s it kl (lit "sha256")
    <> pbkdf2 p s it kl (lit "sha256") /\
    forall e',
      run B (verifyPassword (JS.trim p) h o) e' =
      (Ok (Buffer_eqb k2 k1),
       [pbkdf2 (JS.trim p) s it kl (lit "sha256")]).
Proof.
  intros HB Hp Hne. split.
  - intros q h' o' c k H.
    destruct (verifyPassword_cases q h' o')
      as [[msg Hr] | (it & salt & dk & rest & n & Hs & Hn)].
    + rewrite Hr in H. discriminate H.
    + rewrite (verifyPassword_parsed q h' o' it salt dk rest n Hs Hn) in H.
      injection H as Hc _. do 4 eexists. symmetry. exact Hc.
  - destruct (run_hashPassword B HB p o e Hp) as (k1 & Hd & Hl & Hr).
    cbv zeta in *.
    destruct (derive_total B HB (JS.trim p)
                (saltArg (isLegacy o) (fst (draw 16 e)))
                (iterationsOf (isLegacy o)) (keylenOf (isLegacy o)))
      as (k2 & Hd2 & _);
      [destruct (isLegacy o); cbn; lia | destruct (isLegacy o); cbn; lia |].
    eexists. exists (saltArg (isLegacy o) (fst (draw 16 e))),
      (iterationsOf (isLegacy o)), (keylenOf (isLegacy o)), k1, k2.
    split; [exact Hr|]. split; [exact Hd|]. split; [exact Hd2|].
    split; [intros H; injection H as H; exact (Hne H)|].
    intros e'. rewrite <- Hl in Hd2.
    rewrite (run_verifyPassword_encoded B HB (JS.trim p) o e' _ k1 k2 Hd2).
    rewrite Hl. reflexivity.
Qed.

Lemma plaintext_reaches_kdf_untrimmed_witness :
  lawful Toy.backend /\
  (6 <= JS.length (JS.trim (lit " hunter2 ")))%Z /\
  JS.trim (lit " hunter2 ") <> lit " hunter2 " /\
  exists h s it kl k1 k2,
    run Toy.backend (hashPassword (lit " hunter2 ") noOptions) Toy.tape =
    (Ok h, [randomBytes 16; pbkdf2 (lit " hunter2 ") s it kl (lit "sha256")])
    /\
    derive Toy.backend (lit " hunter2 ") s it kl (lit "sha256") = Ok k1 /\
    derive Toy.backend (JS.trim (lit " hunter2 ")) s it kl (lit "sha256")
    = Ok k2 /\
    pbkdf2 (JS.trim (lit " hunter2 ")) s it kl (lit "sha256")
    <> pbkdf2 (lit " hunter2 ") s it kl (lit "sha256") /\
    forall e',
      run Toy.backend
        (verifyPassword (JS.trim (lit " hunter2 ")) h noOptions) e' =
      (Ok (Buffer_eqb k2 k1),
       [pbkdf2 (JS.trim (lit " hunter2 ")) s it kl (lit "sha256")]).
Proof.
  split; [exact Toy_lawful|]. split; [discriminate|]. split; [discriminate|].
  apply (plaintext_reaches_kdf_untrimmed Toy.backend (lit " hunter2 ")
           noOptions Toy.tape Toy_lawful); discriminate.
Defined.

(** * Further properties *)

(** ** generateHexToken *)

(** A lower-case hexadecimal digit. *)
Lemma hexDigit_lower (n : N) :
  n < 16 ->
  48 <= Encoding.hexDigit n <= 57 \/ 97 <= Encoding.hexDigit n <= 102.
Proof. intros Hn. unfold Encoding.hexDigit. ncases. Qed.

(** X1: for a size the build accepts, [generateHexToken] returns a string
    of twice as many characters, all of them lower-case hexadecimal
    digits, that decodes to the bytes read from the tape; the tape it
    leaves is the one after these bytes. *)
Theorem generateHexToken_token (L : Limits) (size : Z) (e : entropy) :
  (0 <= size <= kMaxLength L)%Z ->
  (2 * size <= kStringMaxLength L)%Z ->
  exists token,
    generateHexToken L size e =
    (Ok token, snd (draw (Z.to_nat size) e)) /\
    JS.length token = (2 * size)%Z /\
    Forall (fun c => 48 <= c <= 57 \/ 97 <= c <= 102) token /\
    Encoding.hexDecode token = fst (draw (Z.to_nat size) e).
Proof.
  intros Hs Hl. exists (Encoding.hexEncode (fst (draw (Z.to_nat size) e))).
  assert (Hlen : JS.length
                   (Encoding.hexEncode (fst (draw (Z.to_nat size) e)))
                 = (2 * size)%Z).
  { unfold JS.length. rewrite EncodingFacts.hexEncode_length, draw_length.
    lia. }
  split; [|split; [exact Hlen|split]].
  - unfold generateHexToken, randomBytesSync.
    destruct (Z.ltb_spec size 0); [lia|].
    destruct (Z.ltb_spec (kMaxLength L) size); [lia|].
    cbn [orb]. unfold draw at 1. unfold Buffer_toString.
    cbn [Encoding.encode]. change (map e (seq 0 (Z.to_nat size)))
      with (fst (draw (Z.to_nat size) e)).
    rewrite Hlen.
    destruct (Z.ltb_spec (kStringMaxLength L) (2 * size)); [lia|].
    reflexivity.
  - apply EncodingFacts.hexEncode_Forall. exact hexDigit_lower.
  - apply EncodingFacts.hexDecode_hexEncode.
Qed.

Lemma generateHexToken_token_witness :
  (0 <= 4 <= kMaxLength node12)%Z /\
  (2 * 4 <= kStringMaxLength node12)%Z /\
  exists token,
    generateHexToken node12 4 Toy.tape =
    (Ok token, snd (draw (Z.to_nat 4) Toy.tape)) /\
    JS.length token = (2 * 4)%Z /\
    Forall (fun c => 48 <= c <= 57 \/ 97 <= c <= 102) token /\
    Encoding.hexDecode token = fst (draw (Z.to_nat 4) Toy.tape).
Proof.
  split; [split; discriminate|]. split; [discriminate|].
  apply (generateHexToken_token node12 4 Toy.tape);
    [split; discriminate | discriminate].
Defined.

(** ** What a hash holds *)

Lemma base64Encode_length (b : Buffer) :
  List.length (Encoding.base64Encode b)
  = (4 * ((List.length b + 2) / 3))%nat.
Proof.
  induction b as [|x|x y|x y z b IH] using list_ind3;
    try reflexivity.
  cbn [Encoding.base64Encode List.length]. rewrite IH.
  replace (S (S (S (List.length b))) + 2)%nat
    with (List.length b + 2 + 1 * 3)%nat by lia.
  rewrite Nat.div_add by discriminate. lia.
Qed.

(** X3: the string [hashPassword] resolves to splits into exactly four
    fields: the algorithm name, the iteration count of the mode as a
    decimal number that [parseInt] reads back, and two fields that decode,
    in the encoding of the mode, to the 16 bytes of the salt and to the
    derived key. *)
Theorem hashPassword_fields
  (B : Backend) (p : jsstring) (o : Options) (e : entropy) :
  lawful B ->
  (6 <= JS.length (JS.trim p))%Z ->
  let enc := encodingOf (isLegacy o) in
  exists (h it salt key : jsstring) (dk : Buffer),
    outcome B (hashPassword p o) e = Ok h /\
    JS.split 36 h = [lit "pbkdf2_sha256"; it; salt; key] /\
    JS.parseInt (JS.VString it) = JS.Num (iterationsOf (isLegacy o)) /\
    Encoding.decode enc salt = fst (draw 16 e) /\
    Encoding.decode enc key = dk /\
    Buffer_length dk = keylenOf (isLegacy o) /\
    derive B p (saltArg (isLegacy o) (fst (draw 16 e)))
      (iterationsOf (isLegacy o)) (keylenOf (isLegacy o)) (lit "sha256")
    = Ok dk.
Proof.
  intros HB Hp enc.
  destruct (run_hashPassword B HB p o e Hp) as (dk & Hd & Hl & Hr).
  cbv zeta in *. fold enc in Hr.
  eexists. exists (JS.toString (iterationsOf (isLegacy o))).
  exists (Encoding.encode enc (fst (draw 16 e))), (Encoding.encode enc dk), dk.
  split; [unfold outcome; rewrite Hr; reflexivity|].
  assert (Hit : Forall (fun c => c <> 36)
                  (JS.toString (iterationsOf (isLegacy o))) /\
                JS.parseInt (JS.VString
                               (JS.toString (iterationsOf (isLegacy o))))
                = JS.Num (iterationsOf (isLegacy o))).
  { destruct (isLegacy o); split; try reflexivity; no_dollar. }
  destruct Hit as [Hnd Hn].
  split; [apply split_template;
          [exact Hnd | apply encode_no_dollar | apply encode_no_dollar]|].
  split; [exact Hn|].
  rewrite !EncodingFacts.decode_encode. repeat split; assumption.
Qed.

Lemma hashPassword_fields_witness :
  lawful Toy.backend /\
  (6 <= JS.length (JS.trim (lit "hunter2")))%Z /\
  exists (h it salt key : jsstring) (dk : Buffer),
    outcome Toy.backend (hashPassword (lit "hunter2") legacyOptions) Toy.tape
    = Ok h /\
    JS.split 36 h = [lit "pbkdf2_sha256"; it; salt; key] /\
    JS.parseInt (JS.VString it) = JS.Num 100000 /\
    Encoding.hexDecode salt = fst (draw 16 Toy.tape) /\
    Encoding.hexDecode key = dk /\
    Buffer_length dk = 64%Z /\
    derive Toy.backend (lit "hunter2")
      (OfString (Encoding.hexEncode (fst (draw 16 Toy.tape)))) 100000 64
      (lit "sha256") = Ok dk.
Proof.
  split; [exact Toy_lawful|]. split; [discriminate|].
  apply (hashPassword_fields Toy.backend (lit "hunter2") legacyOptions
           Toy.tape Toy_lawful).
  discriminate.
Defined.

(** X4: the string [hashPassword] resolves to has 90 code units in the
    current mode and 182 in the legacy mode, whatever the password. *)
Theorem hashPassword_length
  (B : Backend) (p : jsstring) (o : Options) (e : entropy) :
  lawful B ->
  (6 <= JS.length (JS.trim p))%Z ->
  exists h,
    outcome B (hashPassword p o) e = Ok h /\
    JS.length h = if isLegacy o then 182%Z else 90%Z.
Proof.
  intros HB Hp. pose proof (draw_length 16 e) as Hsl.
  destruct (isLegacy o) eqn:Ho.
  - destruct (run_hashPassword_legacy B HB p o e Hp Ho)
      as (dk & Hd & Hl & Hr).
    cbv zeta in Hr. eexists. unfold outcome. rewrite Hr.
    split; [reflexivity|].
    unfold JS.length. rewrite template_sha256.
    rewrite length_app. cbn [List.length]. rewrite length_app.
    cbn [List.length]. rewrite length_app. cbn [List.length].
    rewrite !EncodingFacts.hexEncode_length, Hsl, Hl. reflexivity.
  - destruct (run_hashPassword_current B HB p o e Hp Ho)
      as (dk & Hd & Hl & Hr).
    cbv zeta in Hr. eexists. unfold outcome. rewrite Hr.
    split; [reflexivity|].
    unfold JS.length. rewrite template_sha256.
    rewrite length_app. cbn [List.length]. rewrite length_app.
    cbn [List.length]. rewrite length_app. cbn [List.length].
    rewrite !base64Encode_length, Hsl, Hl. reflexivity.
Qed.

Lemma hashPassword_length_witness :
  lawful Toy.backend /\
  (6 <= JS.length (JS.trim (lit "correct horse battery staple")))%Z /\
  exists h,
    outcome Toy.backend
      (hashPassword (lit "correct horse battery staple") noOptions) Toy.tape
    = Ok h /\
    JS.length h = 90%Z.
Proof.
  split; [exact Toy_lawful|]. split; [discriminate|].
  apply (hashPassword_length Toy.backend (lit "correct horse battery staple")
           noOptions Toy.tape Toy_lawful).
  discriminate.
Defined.

(** X5: two runs of [hashPassword] in the same mode that drew different
    salts resolve to different strings, whatever the two passwords. *)
Theorem hashPassword_salts_differ
  (B : Backend) (p1 p2 : jsstring) (o : Options) (e1 e2 : entropy)
  (h1 h2 : jsstring) :
  lawful B ->
  (6 <= JS.length (JS.trim p1))%Z ->
  (6 <= JS.length (JS.trim p2))%Z ->
  fst (draw 16 e1) <> fst (draw 16 e2) ->
  outcome B (hashPassword p1 o) e1 = Ok h1 ->
  outcome B (hashPassword p2 o) e2 = Ok h2 ->
  h1 <> h2.
Proof.
  intros HB Hp1 Hp2 Hne H1 H2 Heq.
  destruct (run_hashPassword B HB p1 o e1 Hp1) as (dk1 & _ & _ & Hr1).
  destruct (run_hashPassword B HB p2 o e2 Hp2) as (dk2 & _ & _ & Hr2).
  cbv zeta in Hr1, Hr2. revert Hne Hr1 Hr2.
  generalize (fst (draw 16 e1)), (fst (draw 16 e2)).
  intros s1 s2 Hne Hr1 Hr2. unfold outcome in H1, H2.
  rewrite Hr1 in H1. rewrite Hr2 in H2. cbn [fst] in H1, H2.
  injection H1 as <-. injection H2 as <-.
  assert (Hnd : Forall (fun c => c <> 36)
                  (JS.toString (iterationsOf (isLegacy o))))
    by (destruct (isLegacy o); no_dollar).
  apply (f_equal (JS.split 36)) in Heq.
  rewrite !split_template in Heq
    by (exact Hnd || apply encode_no_dollar).
  injection Heq as Hsalt _.
  apply (f_equal (Encoding.decode (encodingOf (isLegacy o)))) in Hsalt.
  rewrite !EncodingFacts.decode_encode in Hsalt. exact (Hne Hsalt).
Qed.

Lemma hashPassword_salts_differ_witness :
  let h1 := resolved (outcome Toy.backend
                        (hashPassword (lit "hunter2") noOptions) Toy.tape) in
  let h2 := resolved (outcome Toy.backend
                        (hashPassword (lit "hunter2") noOptions)
                        (tapeFrom 1)) in
  fst (draw 16 Toy.tape) <> fst (draw 16 (tapeFrom 1)) /\ h1 <> h2.
Proof.
  intros h1 h2. split; [vm_compute; discriminate|].
  apply (hashPassword_salts_differ Toy.backend (lit "hunter2")
           (lit "hunter2") noOptions Toy.tape (tapeFrom 1) h1 h2 Toy_lawful).
  - discriminate.
  - discriminate.
  - vm_compute. discriminate.
  - vm_compute. reflexivity.
  - vm_compute. reflexivity.
Defined.

(** ** Which plaintexts a hash accepts *)

(** X6: [verifyPassword] of any plaintext [q] against the hash of [p], in
    the mode of the hash, raises no error; it returns [true] exactly when
    the key derived from [q] is the key derived from [p], and [false]
    exactly when the two keys differ. *)
Theorem verifyPassword_true_iff_same_key
  (B : Backend) (p q : jsstring) (o : Options) (e : entropy) :
  lawful B ->
  (6 <= JS.length (JS.trim p))%Z ->
  let s := saltArg (isLegacy o) (fst (draw 16 e)) in
  let it := iterationsOf (isLegacy o) in
  let kl := keylenOf (isLegacy o) in
  exists h kp kq,
    outcome B (hashPassword p o) e = Ok h /\
    derive B p s it kl (lit "sha256") = Ok kp /\
    derive B q s it kl (lit "sha256") = Ok kq /\
    forall e',
      (outcome B (verifyPassword q h o) e' = Ok true <-> kq = kp) /\
      (outcome B (verifyPassword q h o) e' = Ok false <-> kq <> kp).
Proof.
  intros HB Hp s it kl. subst s it kl.
  destruct (run_hashPassword B HB p o e Hp) as (kp & Hd & Hl & Hr).
  cbv zeta in *. revert Hd Hr. generalize (fst (draw 16 e)).
  intros salt Hd Hr.
  destruct (derive_total B HB q (saltArg (isLegacy o) salt)
              (iterationsOf (isLegacy o)) (keylenOf (isLegacy o)))
    as (kq & Hdq & _);
    [destruct (isLegacy o); cbn; lia | destruct (isLegacy o); cbn; lia|].
  eexists. exists kp, kq.
  split; [unfold outcome; rewrite Hr; reflexivity|].
  split; [exact Hd|]. split; [exact Hdq|]. intros e'.
  rewrite <- Hl in Hdq. unfold outcome.
  rewrite (run_verifyPassword_encoded B HB q o e' _ kp kq Hdq). cbn [fst].
  destruct (Buffer_eqb kq kp) eqn:E.
  - apply Buffer_eqb_eq in E. subst kq. split.
    + split; intros _; reflexivity.
    + split; [discriminate | intros H; exfalso; apply H; reflexivity].
  - assert (Hne : kq <> kp)
      by (intros ->; rewrite Buffer_eqb_refl in E; discriminate E).
    split.
    + split; [discriminate | intros Heq; contradiction].
    + split; intros _; [exact Hne | reflexivity].
Qed.

Lemma verifyPassword_true_iff_same_key_witness :
  lawful Toy.backend /\
  (6 <= JS.length (JS.trim (lit "hunter2")))%Z /\
  exists h kp kq,
    outcome Toy.backend (hashPassword (lit "hunter2") noOptions) Toy.tape
    = Ok h /\
    derive Toy.backend (lit "hunter2") (OfBuffer (fst (draw 16 Toy.tape)))
      150000 32 (lit "sha256") = Ok kp /\
    derive Toy.backend (lit "hunter3") (OfBuffer (fst (draw 16 Toy.tape)))
      150000 32 (lit "sha256") = Ok kq /\
    forall e',
      (outcome Toy.backend (verifyPassword (lit "hunter3") h noOptions) e'
       = Ok true <-> kq = kp) /\
      (outcome Toy.backend (verifyPassword (lit "hunter3") h noOptions) e'
       = Ok false <-> kq <> kp).
Proof.
  split; [exact Toy_lawful|]. split; [discriminate|].
  apply (verifyPassword_true_iff_same_key Toy.backend (lit "hunter2")
           (lit "hunter3") noOptions Toy.tape Toy_lawful).
  discriminate.
Defined.

(** X7: a stored hash that passes the assertions and whose key field
    decodes to no byte never verifies as [false], whatever the plaintext:
    [pbkdf2] is called for a key of length zero, and the run ends with
    the rejection of that call or, if it resolves, with [true]. *)
Theorem verifyPassword_empty_key_never_false
  (B : Backend) (q h : jsstring) (o : Options)
  (it salt dk : jsstring) (rest : list jsstring) (n : Z) (e : entropy) :
  lawful B ->
  JS.split 36 h = lit "pbkdf2_sha256" :: it :: salt :: dk :: rest ->
  JS.parseInt (JS.VString it) = JS.Num n ->
  Encoding.decode (encodingOf (isLegacy o)) dk = [] ->
  let s := saltArg (isLegacy o)
             (Encoding.decode (encodingOf (isLegacy o)) salt) in
  run B (verifyPassword q h o) e =
  (match derive B q s n 0 (lit "sha256") with
   | Ok _ => Ok true
   | Err x => Err x
   end,
   [pbkdf2 q s n 0 (lit "sha256")]) /\
  outcome B (verifyPassword q h o) e <> Ok false.
Proof.
  intros HB Hs Hn Hk s.
  pose proof (run_verifyPassword_empty_key B HB q h o it salt dk rest n e
                Hs Hn Hk) as Hr.
  cbv zeta in Hr. fold s in Hr. split; [exact Hr|].
  unfold outcome. rewrite Hr. cbn [fst].
  destruct (derive B q s n 0 (lit "sha256")); discriminate.
Qed.

Lemma verifyPassword_empty_key_never_false_witness :
  lawful Toy.backend /\
  JS.split 36 (lit "pbkdf2_sha256$150000$AAECAwQF$=Zm9v") =
  [lit "pbkdf2_sha256"; lit "150000"; lit "AAECAwQF"; lit "=Zm9v"] /\
  Encoding.base64Decode (lit "=Zm9v") = [] /\
  run Toy.backend
    (verifyPassword (lit "anything")
       (lit "pbkdf2_sha256$150000$AAECAwQF$=Zm9v") noOptions) Toy.tape
  = (Err (Error "Deriving bits failed"),
     [pbkdf2 (lit "anything") (OfBuffer (map byte_of_N [0; 1; 2; 3; 4; 5]))
        150000 0 (lit "sha256")]).
Proof.
  split; [exact Toy_lawful|]. split; [reflexivity|]. split; [reflexivity|].
  apply (verifyPassword_empty_key_never_false Toy.backend (lit "anything")
           (lit "pbkdf2_sha256$150000$AAECAwQF$=Zm9v") noOptions
           (lit "150000") (lit "AAECAwQF") (lit "=Zm9v") [] 150000 Toy.tape
           Toy_lawful); reflexivity.
Defined.

(** X8: a hash produced in the current mode whose base64 key field does
    not begin with two hexadecimal digits never verifies as [false] in
    legacy mode, not even for a wrong plaintext: read as hex the key field
    decodes to no byte, so [pbkdf2] is called for a key of length zero and
    the run ends with the rejection of that call or, if it resolves, with
    [true]. *)
Theorem current_hash_in_legacy_mode_empty_key
  (B : Backend) (p : jsstring) (e : entropy) (dk : Buffer) :
  lawful B ->
  (6 <= JS.length (JS.trim p))%Z ->
  derive B p (OfBuffer (fst (draw 16 e))) 150000 32 (lit "sha256") = Ok dk ->
  Encoding.hexDecode (Encoding.base64Encode dk) = [] ->
  exists h s,
    outcome B (hashPassword p noOptions) e = Ok h /\
    s = OfString
          (Encoding.hexEncode
             (Encoding.hexDecode (Encoding.base64Encode (fst (draw 16 e)))))
    /\
    forall q e',
      run B (verifyPassword q h legacyOptions) e' =
      (match derive B q s 150000 0 (lit "sha256") with
       | Ok _ => Ok true
       | Err x => Err x
       end,
       [pbkdf2 q s 150000 0 (lit "sha256")]).
Proof.
  intros HB Hp Hd Hk.
  destruct (run_hashPassword_current B HB p noOptions e Hp eq_refl)
    as (dk' & Hd' & _ & Hr).
  cbv zeta in *. rewrite Hd in Hd'. injection Hd' as <-.
  revert Hr. generalize (fst (draw 16 e)). intros salt Hr.
  eexists. eexists. split; [unfold outcome; rewrite Hr; reflexivity|].
  split; [reflexivity|]. intros q e'.
  pose proof (split_template 150000 (Encoding.base64Encode salt)
                (Encoding.base64Encode dk) ltac:(no_dollar)
                (base64Encode_no_dollar salt) (base64Encode_no_dollar dk))
    as Hs.
  exact (run_verifyPassword_empty_key B HB q _ legacyOptions _ _ _ []
           150000 e' Hs eq_refl Hk).
Qed.

Lemma current_hash_in_legacy_mode_empty_key_witness :
  let dk := match derive Toy.backend (lit "hunter2")
                    (OfBuffer (fst (draw 16 Toy.tape))) 150000 32
                    (lit "sha256") with
            | Ok b => b
            | Err _ => []
            end in
  lawful Toy.backend /\
  Encoding.hexDecode (Encoding.base64Encode dk) = [] /\
  exists h s,
    outcome Toy.backend (hashPassword (lit "hunter2") noOptions) Toy.tape
    = Ok h /\
    s = OfString
          (Encoding.hexEncode
             (Encoding.hexDecode
                (Encoding.base64Encode (fst (draw 16 Toy.tape))))) /\
    forall q e',
      run Toy.backend (verifyPassword q h legacyOptions) e' =
      (match derive Toy.backend q s 150000 0 (lit "sha256") with
       | Ok _ => Ok true
       | Err x => Err x
       end,
       [pbkdf2 q s 150000 0 (lit "sha256")]).
Proof.
  intros dk. split; [exact Toy_lawful|]. split; [vm_compute; reflexivity|].
  apply (current_hash_in_legacy_mode_empty_key Toy.backend (lit "hunter2")
           Toy.tape dk Toy_lawful).
  - discriminate.
  - vm_compute. reflexivity.
  - vm_compute. reflexivity.
Defined.

Lemma firstn_seq_le (n m a : nat) :
  (n <= m)%nat -> firstn n (seq a m) = seq a n.
Proof.
  revert m a. induction n as [|n IH]; intros m a H; [reflexivity|].
  destruct m as [|m]; [lia|]. cbn [seq firstn]. rewrite IH by lia.
  reflexivity.
Qed.

Lemma Toy_prefix_consistent : prefix_consistent Toy.backend.
Proof.
  intros pw s it d k1 k2 out1 out2. cbn [derive Toy.backend].
  unfold Toy.derive.
  destruct ((1 <=? it)%Z && (it <=? 2147483647)%Z && (0 <=? k1)%Z
            && (k1 <=? 2147483647)%Z) eqn:E1; [|discriminate].
  destruct ((1 <=? it)%Z && (it <=? 2147483647)%Z && (0 <=? k2)%Z
            && (k2 <=? 2147483647)%Z) eqn:E2; [|discriminate].
  destruct (k1 =? 0)%Z; [discriminate|].
  destruct (k2 =? 0)%Z; [discriminate|].
  intros H1 H2 Hk. injection H1 as <-. injection H2 as <-.
  apply andb_prop in E1. destruct E1 as [E1 _].
  apply andb_prop in E1. destruct E1 as [_ E1].
  rewrite firstn_map, firstn_seq_le by lia. reflexivity.
Qed.

(** X9: with a key derivation whose shorter keys are the beginnings of
    its longer ones, as PBKDF2 is, a stored hash keeps verifying as
    [true] for its password when its key is replaced by the encoding of
    any prefix of it of at least one byte: the key length is read off
    the stored key. *)
Theorem verifyPassword_truncated_key
  (B : Backend) (p : jsstring) (o : Options) (e : entropy) (k : nat) :
  lawful B ->
  prefix_consistent B ->
  (6 <= JS.length (JS.trim p))%Z ->
  (1 <= Z.of_nat k <= keylenOf (isLegacy o))%Z ->
  let enc := encodingOf (isLegacy o) in
  let it := iterationsOf (isLegacy o) in
  let salt := fst (draw 16 e) in
  exists dk,
    outcome B (hashPassword p o) e =
    Ok (template (lit "sha256") it (Encoding.encode enc salt)
          (Encoding.encode enc dk)) /\
    forall e',
      outcome B
        (verifyPassword p
           (template (lit "sha256") it (Encoding.encode enc salt)
              (Encoding.encode enc (firstn k dk))) o) e' = Ok true.
Proof.
  intros HB HP Hp Hk enc it salt. subst enc it salt.
  destruct (run_hashPassword B HB p o e Hp) as (dk & Hd & Hl & Hr).
  cbv zeta in *. revert Hd Hr. generalize (fst (draw 16 e)).
  intros salt Hd Hr.
  exists dk. split; [unfold outcome; rewrite Hr; reflexivity|].
  intros e'.
  destruct (derive_total B HB p (saltArg (isLegacy o) salt)
              (iterationsOf (isLegacy o)) (Z.of_nat k))
    as (out & Ho & _);
    [destruct (isLegacy o); cbn; lia
    |destruct (isLegacy o); cbn in Hk |- *; lia|].
  pose proof (HP _ _ _ _ _ _ _ _ Ho Hd (proj2 Hk)) as Hout.
  rewrite Nat2Z.id in Hout.
  assert (Hlen : Buffer_length (firstn k dk) = Z.of_nat k).
  { unfold Buffer_length in *. rewrite length_firstn. lia. }
  rewrite <- Hlen in Ho. unfold outcome.
  rewrite (run_verifyPassword_encoded B HB p o e' salt (firstn k dk) out Ho).
  cbn [fst]. rewrite Hout, Buffer_eqb_refl. reflexivity.
Qed.

Lemma verifyPassword_truncated_key_witness :
  lawful Toy.backend /\ prefix_consistent Toy.backend /\
  (6 <= JS.length (JS.trim (lit "hunter2")))%Z /\
  (1 <= Z.of_nat 5 <= keylenOf (isLegacy legacyOptions))%Z /\
  exists dk,
    outcome Toy.backend (hashPassword (lit "hunter2") legacyOptions) Toy.tape
    = Ok (template (lit "sha256") 100000
            (Encoding.hexEncode (fst (draw 16 Toy.tape)))
            (Encoding.hexEncode dk)) /\
    forall e',
      outcome Toy.backend
        (verifyPassword (lit "hunter2")
           (template (lit "sha256") 100000
              (Encoding.hexEncode (fst (draw 16 Toy.tape)))
              (Encoding.hexEncode (firstn 5 dk))) legacyOptions) e'
      = Ok true.
Proof.
  split; [exact Toy_lawful|]. split; [exact Toy_prefix_consistent|].
  split; [discriminate|]. split; [split; discriminate|].
  apply (verifyPassword_truncated_key Toy.backend (lit "hunter2")
           legacyOptions Toy.tape 5 Toy_lawful Toy_prefix_consistent);
    [discriminate | split; discriminate].
Defined.

(** ** Strings that verify alike *)

Lemma split_app_sep (sep : N) (a b : jsstring) :
  JS.split sep (a ++ sep :: b) = JS.split sep a ++ JS.split sep b.
Proof.
  induction a as [|c a IH].
  - cbn [app JS.split]. rewrite N.eqb_refl. reflexivity.
  - cbn [app JS.split]. rewrite IH. destruct (c =? sep); [reflexivity|].
    destruct (JS.split sep a) as [|f fs] eqn:E; [|reflexivity].
    exfalso. exact (JSFacts.split_nonempty sep a E).
Qed.

(** [verifyPassword] reads the first four fields only. *)
Lemma verifyPassword_first_four (p h1 h2 : jsstring) (o : Options) :
  (forall i, (i < 4)%nat ->
             nth_error (JS.split 36 h1) i = nth_error (JS.split 36 h2) i) ->
  verifyPassword p h1 o = verifyPassword p h2 o.
Proof.
  intros H. unfold verifyPassword, JS.element. cbv zeta.
  rewrite (H 0%nat), (H 1%nat), (H 2%nat), (H 3%nat) by lia. reflexivity.
Qed.

(** X10: whatever follows a fifth [$] is ignored: a stored hash of at
    least four fields and the same hash with [$] and any text appended
    give the same verification. *)
Theorem verifyPassword_ignores_trailing_fields
  (p h junk : jsstring) (o : Options) :
  (4 <= List.length (JS.split 36 h))%nat ->
  verifyPassword p (h ++ 36 :: junk) o = verifyPassword p h o.
Proof.
  intros H. apply verifyPassword_first_four. intros i Hi.
  rewrite split_app_sep. apply nth_error_app1. lia.
Qed.

Lemma verifyPassword_ignores_trailing_fields_witness :
  (4 <= List.length (JS.split 36 (lit "pbkdf2_sha256$150000$AAEC$Zm9v")))%nat
  /\
  verifyPassword (lit "hunter2")
    (lit "pbkdf2_sha256$150000$AAEC$Zm9v" ++ 36 :: lit "$any$thing") noOptions
  = verifyPassword (lit "hunter2") (lit "pbkdf2_sha256$150000$AAEC$Zm9v")
      noOptions.
Proof.
  split; [vm_compute; lia|].
  apply (verifyPassword_ignores_trailing_fields (lit "hunter2")
           (lit "pbkdf2_sha256$150000$AAEC$Zm9v") (lit "$any$thing")
           noOptions).
  vm_compute. lia.
Defined.

Lemma dropWhile_app_all (f : N -> bool) (a b : jsstring) :
  Forall (fun c => f c = true) a ->
  JS.dropWhile f (a ++ b) = JS.dropWhile f b.
Proof.
  induction 1 as [|c a Hc _ IH]; [reflexivity|].
  cbn [app JS.dropWhile]. rewrite Hc. exact IH.
Qed.

Lemma takeWhile_app_stop (f : N -> bool) (a b : jsstring) :
  Forall (fun c => f c = true) a ->
  match b with [] => True | c :: _ => f c = false end ->
  JS.takeWhile f (a ++ b) = a.
Proof.
  intros Ha Hb. induction Ha as [|c a Hc _ IH].
  - destruct b as [|c b]; [reflexivity|]. cbn [app JS.takeWhile].
    rewrite Hb. reflexivity.
  - cbn [app JS.takeWhile]. rewrite Hc, IH. reflexivity.
Qed.

(** [parseInt] reads the leading digits of a string: white space before
    them and whatever follows them are dropped, and the Number value of
    what the digits denote is returned. *)
Lemma parseInt_leading_digits (ws ds junk : jsstring) :
  Forall (fun c => JS.isWhiteSpace c = true) ws ->
  ds <> [] ->
  Forall (fun c => JS.isDigit c = true) ds ->
  match junk with [] => True | c :: _ => JS.isDigit c = false end ->
  JS.parseInt (JS.VString (ws ++ ds ++ junk))
  = JS.Num (JS.nearestDouble (JS.digitsValue ds)).
Proof.
  intros Hws Hne Hds Hj. unfold JS.parseInt, JS.trimStart.
  cbn [JS.ToString]. rewrite dropWhile_app_all by exact Hws.
  destruct ds as [|d ds]; [contradiction|].
  pose proof (Forall_inv Hds) as Hd.
  assert (Hcase : d = 48 \/ d = 49 \/ d = 50 \/ d = 51 \/ d = 52 \/ d = 53
                  \/ d = 54 \/ d = 55 \/ d = 56 \/ d = 57).
  { unfold JS.isDigit in Hd. apply andb_prop in Hd. destruct Hd as [H1 H2].
    apply N.leb_le in H1. apply N.leb_le in H2. lia. }
  assert (Hstart : JS.dropWhile JS.isWhiteSpace ((d :: ds) ++ junk)
                   = (d :: ds) ++ junk).
  { cbn [app JS.dropWhile].
    repeat (destruct Hcase as [-> | Hcase]; [reflexivity|]).
    subst d. reflexivity. }
  rewrite Hstart.
  pose proof (takeWhile_app_stop _ _ _ Hds Hj) as Htw.
  repeat (destruct Hcase as [-> | Hcase];
          [cbn [app] in Htw |- *; rewrite Htw, Z.mul_1_l; reflexivity|]).
  subst d. cbn [app] in Htw |- *. rewrite Htw, Z.mul_1_l. reflexivity.
Qed.

(** X11: the iteration count of a stored hash is what [parseInt] reads:
    with white space before the digits of the iterations field and any
    text that does not start with a digit after them, the hash gives the
    same verification as with the digits alone, and [pbkdf2] receives the
    Number value of what the digits denote. *)
Theorem verifyPassword_iterations_leading_digits
  (p h h' : jsstring) (o : Options)
  (ws ds junk salt dk : jsstring) (rest rest' : list jsstring) :
  Forall (fun c => JS.isWhiteSpace c = true) ws ->
  ds <> [] ->
  Forall (fun c => JS.isDigit c = true) ds ->
  match junk with [] => True | c :: _ => JS.isDigit c = false end ->
  JS.split 36 h =
  lit "pbkdf2_sha256" :: (ws ++ ds ++ junk) :: salt :: dk :: rest ->
  JS.split 36 h' = lit "pbkdf2_sha256" :: ds :: salt :: dk :: rest' ->
  verifyPassword p h o = verifyPassword p h' o /\
  exists c k,
    verifyPassword p h o = Await c k /\
    exists s kl d,
      c = pbkdf2 p s (JS.nearestDouble (JS.digitsValue ds)) kl d.
Proof.
  intros Hws Hne Hds Hj Hs Hs'.
  pose proof (parseInt_leading_digits ws ds junk Hws Hne Hds Hj) as Hn.
  pose proof (parseInt_leading_digits [] ds [] (Forall_nil _) Hne Hds I)
    as Hn'.
  cbn [app] in Hn'. rewrite app_nil_r in Hn'.
  rewrite (verifyPassword_parsed p h o _ salt dk rest _ Hs Hn).
  rewrite (verifyPassword_parsed p h' o _ salt dk rest' _ Hs' Hn').
  split; [reflexivity|]. do 2 eexists. split; [reflexivity|].
  do 3 eexists. reflexivity.
Qed.

Lemma verifyPassword_iterations_leading_digits_witness :
  JS.split 36 (lit "pbkdf2_sha256$  150000.5 rounds$AAEC$Zm9v") =
  lit "pbkdf2_sha256" :: (lit "  " ++ lit "150000" ++ lit ".5 rounds")
    :: lit "AAEC" :: lit "Zm9v" :: [] /\
  verifyPassword (lit "hunter2")
    (lit "pbkdf2_sha256$  150000.5 rounds$AAEC$Zm9v") noOptions
  = verifyPassword (lit "hunter2") (lit "pbkdf2_sha256$150000$AAEC$Zm9v")
      noOptions.
Proof.
  split; [reflexivity|].
  apply (verifyPassword_iterations_leading_digits (lit "hunter2")
           (lit "pbkdf2_sha256$  150000.5 rounds$AAEC$Zm9v")
           (lit "pbkdf2_sha256$150000$AAEC$Zm9v") noOptions
           (lit "  ") (lit "150000") (lit ".5 rounds") (lit "AAEC")
           (lit "Zm9v") [] []).
  - repeat constructor.
  - discriminate.
  - repeat constructor.
  - reflexivity.
  - reflexivity.
  - reflexivity.
Defined.

(** ** The errors of verifyPassword *)

(** The three ways [verifyPassword] can go before it awaits anything. *)
Lemma verifyPassword_shape (p h : jsstring) (o : Options) :
  (JS.element (JS.split 36 h) 0 <> JS.VString (lit "pbkdf2_sha256") /\
   verifyPassword p h o = Reject (AssertionError "Invalid algorithm.")) \/
  (JS.element (JS.split 36 h) 0 = JS.VString (lit "pbkdf2_sha256") /\
   ((List.length (JS.split 36 h) < 4)%nat \/
    JS.parseInt (JS.element (JS.split 36 h) 1) = JS.NaN) /\
   verifyPassword p h o = Reject (AssertionError "Invalid password format."))
  \/
  (exists it salt dk rest n,
      JS.split 36 h = lit "pbkdf2_sha256" :: it :: salt :: dk :: rest /\
      JS.parseInt (JS.VString it) = JS.Num n).
Proof.
  unfold verifyPassword.
  destruct (JS.split 36 h) as [|a l] eqn:Hs;
    [exfalso; exact (JSFacts.split_nonempty 36 h Hs)|].
  cbn [JS.element nth_error].
  destruct (jsstring_eqb a (lit "pbkdf2_sha256")) eqn:Ea.
  - apply jsstring_eqb_eq in Ea. subst a. right.
    destruct l as [|it [|salt [|dk rest]]].
    + left. split; [reflexivity|]. split; [left; cbn; lia | reflexivity].
    + left. split; [reflexivity|]. split; [left; cbn; lia | reflexivity].
    + left. split; [reflexivity|]. split; [left; cbn; lia | reflexivity].
    + cbn [JS.element nth_error].
      destruct (JS.parseInt (JS.VString it)) as [|n] eqn:En.
      * left. split; [reflexivity|]. split; [right; reflexivity|].
        reflexivity.
      * right. exists it, salt, dk, rest, n. split; [reflexivity | exact En].
  - left. split.
    + intros H. injection H as ->. rewrite jsstring_eqb_refl in Ea.
      discriminate Ea.
    + unfold strictEqual at 1. cbn [JS.same]. rewrite Ea. reflexivity.
Qed.

(** X12: the message of the assertion error tells what failed: it is
    "Invalid algorithm." exactly when the first field is not
    [pbkdf2_sha256], and "Invalid password format." exactly when the
    first field is right and there are fewer than four fields or
    [parseInt] of the second is [NaN]. *)
Theorem verifyPassword_assertion_messages (p h : jsstring) (o : Options) :
  (verifyPassword p h o = Reject (AssertionError "Invalid algorithm.") <->
   JS.element (JS.split 36 h) 0 <> JS.VString (lit "pbkdf2_sha256")) /\
  (verifyPassword p h o = Reject (AssertionError "Invalid password format.")
   <->
   JS.element (JS.split 36 h) 0 = JS.VString (lit "pbkdf2_sha256") /\
   ((List.length (JS.split 36 h) < 4)%nat \/
    JS.parseInt (JS.element (JS.split 36 h) 1) = JS.NaN)).
Proof.
  destruct (verifyPassword_shape p h o)
    as [[Ha Hr] | [(Ha & Hf & Hr) | (it & salt & dk & rest & n & Hs & Hn)]].
  - rewrite Hr. split.
    + split; [intros _; exact Ha | reflexivity].
    + split; [discriminate | intros [H _]; contradiction].
  - rewrite Hr. split.
    + split; [discriminate | intros H; contradiction].
    + split; [intros _; split; assumption | reflexivity].
  - rewrite (verifyPassword_parsed p h o it salt dk rest n Hs Hn).
    rewrite Hs. cbn [JS.element nth_error List.length]. rewrite Hn. split.
    + split; [discriminate | intros H; exfalso; apply H; reflexivity].
    + split; [discriminate | intros [_ [H | H]]; [lia | discriminate H]].
Qed.

Lemma verifyPassword_assertion_messages_witness :
  JS.parseInt (JS.element (JS.split 36 (lit "pbkdf2_sha256$$AAEC$Zm9v")) 1)
  = JS.NaN /\
  verifyPassword (lit "hunter2") (lit "pbkdf2_sha256$$AAEC$Zm9v") noOptions
  = Reject (AssertionError "Invalid password format.").
Proof.
  split; [reflexivity|].
  apply (proj2 (verifyPassword_assertion_messages (lit "hunter2")
                  (lit "pbkdf2_sha256$$AAEC$Zm9v") noOptions)).
  split; [reflexivity | right; reflexivity].
Defined.

(** X13: [verifyPassword] draws no random bytes and calls [pbkdf2] at
    most once, with the plaintext and the digest [sha256]; its result and
    its commands do not depend on the entropy tape. *)
Theorem verifyPassword_needs_no_entropy
  (B : Backend) (p h : jsstring) (o : Options) (e e' : entropy) :
  run B (verifyPassword p h o) e = run B (verifyPassword p h o) e' /\
  (trace B (verifyPassword p h o) e = [] \/
   exists s it kl,
     trace B (verifyPassword p h o) e = [pbkdf2 p s it kl (lit "sha256")]).
Proof.
  destruct (verifyPassword_cases p h o)
    as [[msg Hr] | (it & salt & dk & rest & n & Hs & Hn)].
  - rewrite Hr. split; [reflexivity | left; reflexivity].
  - rewrite (verifyPassword_parsed p h o it salt dk rest n Hs Hn).
    unfold trace. cbn [run].
    destruct (derive B p _ n _ (lit "sha256")) as [out | x].
    + destruct (timingSafeEqual out _) as [b | x];
        (split; [reflexivity | right; do 3 eexists; reflexivity]).
    + split; [reflexivity | right; do 3 eexists; reflexivity].
Qed.

(** X14: a rejection of the key derivation leaves both functions
    unchanged: [hashPassword] rejects with it after the salt was drawn,
    and [verifyPassword] rejects with it, whatever the backend. *)
Theorem kdf_rejection_propagates (B : Backend) (x : exn) :
  (forall p o e,
      (6 <= JS.length (JS.trim p))%Z ->
      derive B p (saltArg (isLegacy o) (fst (draw 16 e)))
        (iterationsOf (isLegacy o)) (keylenOf (isLegacy o)) (lit "sha256")
      = Err x ->
      run B (hashPassword p o) e =
      (Err x,
       [randomBytes 16;
        pbkdf2 p (saltArg (isLegacy o) (fst (draw 16 e)))
          (iterationsOf (isLegacy o)) (keylenOf (isLegacy o))
          (lit "sha256")])) /\
  (forall p h o it salt dk rest n e,
      let enc := encodingOf (isLegacy o) in
      JS.split 36 h = lit "pbkdf2_sha256" :: it :: salt :: dk :: rest ->
      JS.parseInt (JS.VString it) = JS.Num n ->
      derive B p (saltArg (isLegacy o) (Encoding.decode enc salt)) n
        (Buffer_length (Encoding.decode enc dk)) (lit "sha256") = Err x ->
      outcome B (verifyPassword p h o) e = Err x).
Proof.
  split.
  - intros p o e Hp Hd. destruct (isLegacy o) eqn:Ho.
    + rewrite (hashPassword_legacy p o Hp Ho). cbn [run].
      change (Z.to_nat 16) with 16%nat. unfold draw at 1.
      cbn [saltArg iterationsOf keylenOf Encoding.encode] in Hd.
      unfold draw in Hd. cbn [fst] in Hd. cbn [run]. rewrite Hd.
      reflexivity.
    + rewrite (hashPassword_current p o Hp Ho). cbn [run].
      change (Z.to_nat 16) with 16%nat. unfold draw at 1.
      cbn [saltArg iterationsOf keylenOf] in Hd.
      unfold draw in Hd. cbn [fst] in Hd. cbn [run]. rewrite Hd.
      reflexivity.
  - intros p h o it salt dk rest n e enc Hs Hn Hd.
    rewrite (verifyPassword_parsed p h o it salt dk rest n Hs Hn).
    unfold outcome. cbn [run]. fold enc. rewrite Hd. reflexivity.
Qed.

Lemma kdf_rejection_propagates_witness :
  derive Toy.backend (lit "hunter2") (OfBuffer []) 0 0 (lit "sha256")
  = Err (RangeError "ERR_OUT_OF_RANGE") /\
  outcome Toy.backend
    (verifyPassword (lit "hunter2") (lit "pbkdf2_sha256$0$$") noOptions)
    Toy.tape
  = Err (RangeError "ERR_OUT_OF_RANGE").
Proof.
  split; [reflexivity|].
  apply (proj2 (kdf_rejection_propagates Toy.backend
                  (RangeError "ERR_OUT_OF_RANGE"))
           (lit "hunter2") (lit "pbkdf2_sha256$0$$") noOptions
           (lit "0") [] [] [] 0%Z Toy.tape); reflexivity.
Defined.

(** ** hashPassword and white space *)

Lemma dropWhile_length (f : N -> bool) (s : jsstring) :
  (List.length (JS.dropWhile f s) <= List.length s)%nat.
Proof.
  induction s as [|c s IH]; cbn [JS.dropWhile List.length]; [lia|].
  destruct (f c); cbn [List.length]; lia.
Qed.

Lemma dropWhile_idem (f : N -> bool) (s : jsstring) :
  JS.dropWhile f (JS.dropWhile f s) = JS.dropWhile f s.
Proof.
  induction s as [|c s IH]; [reflexivity|]. cbn [JS.dropWhile].
  destruct (f c) eqn:E; [exact IH|]. cbn [JS.dropWhile]. rewrite E.
  reflexivity.
Qed.

Lemma dropWhile_suffix (f : N -> bool) (s : jsstring) :
  exists v, s = v ++ JS.dropWhile f s.
Proof.
  induction s as [|c s [v IH]]; [exists []; reflexivity|].
  cbn [JS.dropWhile]. destruct (f c).
  - exists (c :: v). cbn [app]. rewrite <- IH. reflexivity.
  - exists []. reflexivity.
Qed.

Lemma dropWhile_head (f : N -> bool) (s r : jsstring) (c : N) :
  JS.dropWhile f s = c :: r -> f c = false.
Proof.
  induction s as [|a s IH]; [discriminate|]. cbn [JS.dropWhile].
  destruct (f a) eqn:E; [exact IH|]. intros H. injection H as -> _.
  exact E.
Qed.

Lemma trim_length (p : jsstring) : (JS.length (JS.trim p) <= JS.length p)%Z.
Proof.
  unfold JS.length, JS.trim, JS.trimEnd, JS.trimStart.
  rewrite length_rev.
  pose proof (dropWhile_length JS.isWhiteSpace
                (rev (JS.dropWhile JS.isWhiteSpace p))) as H1.
  rewrite length_rev in H1.
  pose proof (dropWhile_length JS.isWhiteSpace p). lia.
Qed.

(** Trimming a trimmed string changes nothing. *)
Lemma trim_trim (p : jsstring) : JS.trim (JS.trim p) = JS.trim p.
Proof.
  unfold JS.trim, JS.trimEnd, JS.trimStart.
  set (s := JS.dropWhile JS.isWhiteSpace p).
  set (t := rev (JS.dropWhile JS.isWhiteSpace (rev s))).
  assert (Hstart : JS.dropWhile JS.isWhiteSpace t = t).
  { destruct (dropWhile_suffix JS.isWhiteSpace (rev s)) as [v Hv].
    assert (Hs : s = t ++ rev v).
    { subst t. rewrite <- rev_app_distr, <- Hv, rev_involutive.
      reflexivity. }
    destruct t as [|c t']; [reflexivity|].
    cbn [app] in Hs. subst s.
    apply dropWhile_head in Hs. cbn [JS.dropWhile]. rewrite Hs.
    reflexivity. }
  rewrite Hstart. subst t. rewrite rev_involutive, dropWhile_idem.
  reflexivity.
Qed.

Lemma hashPassword_rejects_iff (p : jsstring) (o : Options) :
  hashPassword p o = Reject (Error "Password invalid: too short") <->
  (JS.length (JS.trim p) < 6)%Z.
Proof.
  split; [|apply hashPassword_short].
  intros H. destruct (Z.lt_ge_cases (JS.length (JS.trim p)) 6) as [|Hp];
    [assumption|]. exfalso.
  destruct (isLegacy o) eqn:Ho.
  - rewrite (hashPassword_legacy p o Hp Ho) in H. discriminate H.
  - rewrite (hashPassword_current p o Hp Ho) in H. discriminate H.
Qed.

(** X15: [hashPassword] rejects every plaintext of fewer than 6 code
    units and every plaintext made of white space only, however long. *)
Theorem hashPassword_rejects_short_or_blank (p : jsstring) (o : Options) :
  (JS.length p < 6)%Z \/ Forall (fun c => JS.isWhiteSpace c = true) p ->
  hashPassword p o = Reject (Error "Password invalid: too short").
Proof.
  intros [H | H]; apply hashPassword_short.
  - pose proof (trim_length p). lia.
  - unfold JS.trim, JS.trimStart.
    rewrite <- (app_nil_r p), dropWhile_app_all by exact H. reflexivity.
Qed.

Lemma hashPassword_rejects_short_or_blank_witness :
  Forall (fun c => JS.isWhiteSpace c = true) [32; 9; 160; 32; 10; 32; 8232; 32]
  /\
  hashPassword [32; 9; 160; 32; 10; 32; 8232; 32] noOptions
  = Reject (Error "Password invalid: too short").
Proof.
  split; [repeat constructor|].
  apply (hashPassword_rejects_short_or_blank
           [32; 9; 160; 32; 10; 32; 8232; 32] noOptions).
  right. repeat constructor.
Defined.

(** X16: [hashPassword] accepts a plaintext exactly when it accepts the
    trimmed plaintext: the length test looks at [trim p], and trimming
    twice is trimming once. *)
Theorem hashPassword_accepts_iff_trimmed (p : jsstring) (o : Options) :
  hashPassword p o = Reject (Error "Password invalid: too short") <->
  hashPassword (JS.trim p) o = Reject (Error "Password invalid: too short").
Proof.
  rewrite !hashPassword_rejects_iff, trim_trim. reflexivity.
Qed.

(** ** A legacy hash in both modes *)



(** ** The runtime models on inputs past the ASCII and the 2^53 range *)

Example parseInt_rounds :
  map (fun s => JS.parseInt (JS.VString s))
    [lit "9007199254740992"; lit "9007199254740993";
     lit "9007199254740995"; lit "-9007199254740993";
     lit "100000000000000000000000"] =
  [JS.Num 9007199254740992; JS.Num 9007199254740992;
   JS.Num 9007199254740996; JS.Num (-9007199254740992);
   JS.Num 99999999999999991611392].
Proof. vm_compute. reflexivity. Qed.

Example decoders_read_low_byte :
  Encoding.hexDecode (lit "ab" ++ [304; 305]) = [Byte.xab; Byte.x01] /\
  Encoding.base64Decode (lit "AAAA" ++ [321; 321; 321; 321]) =
  [Byte.x00; Byte.x00; Byte.x00; Byte.x00; Byte.x00; Byte.x00].
Proof. split; reflexivity. Qed.

Example Toy_derive_zero_length :
  derive Toy.backend (lit "hunter2") (OfBuffer []) 1 0 (lit "sha256")
  = Err (Error "Deriving bits failed") /\
  derive Toy.backend (lit "hunter2") (OfBuffer []) 0 0 (lit "sha256")
  = Err (RangeError "ERR_OUT_OF_RANGE").
Proof. split; reflexivity. Qed.
